(** * BSDFViewer render pass: shallow embedding and verified properties

    Source: [Source/RenderPasses/BSDFViewer/BSDFViewer.cpp].

    The pass is a callback-shaped adapter over a host framework.  The
    embedding keeps the members of the [BSDFViewer] object in a record, runs
    every callback in a small state-and-exception monad, and takes the
    services of the framework (resource creation, GPU dispatch, the GUI
    widgets, floating-point arithmetic) from a [Host] record, so that every
    theorem holds for whatever the framework answers.

    Conventions.
    - [uint32_t] and [int] values are [Z], with the wrap-around written out
      by [uint32] and [int32].
    - A [float] is its 32-bit pattern; the arithmetic on floats is the
      host's ([Host] fields [f_...]) and stays symbolic.
    - Shader variable bindings ([mpViewerPass["..."] = ...], [addDefines],
      [setVars]) cannot fail and touch no member observed here; they are
      left out.  The fallible bindings are kept. *)

From Stdlib Require Import ZArith Lia Bool List.
From stdpp Require Import base strings pretty gmap.
Import ListNotations.

Local Open Scope Z_scope.

(** ** Machine integers *)

Definition uint32 (z : Z) : Z := z mod 2 ^ 32.
Definition int32 (z : Z) : Z := (z + 2 ^ 31) mod 2 ^ 32 - 2 ^ 31.

Definition is_uint32 (z : Z) : Prop := 0 <= z < 2 ^ 32.

(** [std::min] on [uint32_t] and [glm::clamp] on [int]:
    [clamp(x, lo, hi) = min(max(x, lo), hi)]. *)
Definition std_min (a b : Z) : Z := if b <? a then b else a.
Definition std_max (a b : Z) : Z := if a <? b then b else a.
Definition glm_clamp (x lo hi : Z) : Z := std_min (std_max x lo) hi.

(** ** Data model *)

Definition float : Type := Z.
Definition float2 : Type := float * float.
Definition float3 : Type := float * float * float.
Definition uint2 : Type := Z * Z.
Definition int2 : Type := Z * Z.

(** [BSDFViewerParams] (declared in the header): the fields the pass reads
    or writes.  The int-typed switches are booleans. *)
Record BSDFViewerParams : Type := mkParams {
  frameDim : uint2;
  frameCount : Z;
  sliceViewer : bool;
  viewportOffset : float2;
  viewportScale : float2;
  materialID : Z;
  useSceneMaterial : bool;
  useNormalMapping : bool;
  useFixedTexCoords : bool;
  texCoords : float2;
  baseColor : float3;
  linearRoughness : float;
  metallic : float;
  originalDisney : bool;
  enableDiffuse : bool;
  enableSpecular : bool;
  useBrdfSampling : bool;
  usePdf : bool;
  applyNdotL : bool;
  lightIntensity : float;
  lightColor : float3;
  useGroundPlane : bool;
  useDirectionalLight : bool;
  lightDir : float3;
  useEnvMap : bool;
  orthographicCamera : bool;
  cameraDistance : float;
  cameraFovY : float;
  cameraViewportScale : float;
  readback : bool;
  selectedPixel : int2          (* holds the ivec2 that glm::clamp returns *)
}.

(** [PixelData]: the record read back for the selected pixel. *)
Record PixelData : Type := mkPixelData {
  texC : float2;
  pd_baseColor : float3;
  pd_diffuse : float3;
  pd_specular : float3;
  pd_linearRoughness : float;
  pd_metallic : float;
  pd_T : float3;
  pd_B : float3;
  pd_N : float3;
  pd_wo : float3;
  pd_wi : float3;
  pd_output : float3
}.

(** Host objects, as far as the pass looks into them. *)
Record EnvProbe : Type := mkEnvProbe {
  envMapSourceFilename : string   (* getEnvMap()->getSourceFilename() *)
}.

Record Scene : Type := mkScene {
  getMaterialCount : Z;                 (* uint32_t *)
  getMaterialName : Z -> string;        (* getMaterial(i)->getName() *)
  getLightProbe : option string         (* getOrigTexture()->getSourceFilename() *)
}.

Record ComputePass : Type := mkComputePass { passProgram : string }.
Record SampleGenerator : Type := mkSampleGenerator { generatorType : Z }.
Record StructuredBuffer : Type := mkStructuredBuffer { bufferName : string }.

(** [Gui::DropdownList]: (value, label) pairs. *)
Abbreviation DropdownList := (list (Z * string)).

(** The members of the pass object. *)
Record BSDFViewer : Type := mkBSDFViewer {
  mpScene : option Scene;
  mpEnvProbe : option EnvProbe;
  mEnvProbeFilename : string;
  mMaterialList : DropdownList;
  mParams : BSDFViewerParams;
  mPixelData : PixelData;
  mPixelDataValid : bool;
  mOptionsChanged : bool;
  mpViewerPass : option ComputePass;
  mpSampleGenerator : option SampleGenerator;
  mPixelDataBuffer : option StructuredBuffer
}.

(** *** Field updates

    A setter is read off the eta-expansion of the record: the projection
    being set is abstracted and replaced by the constant function. *)

Definition eta_Params (p : BSDFViewerParams) : BSDFViewerParams :=
  mkParams (frameDim p) (frameCount p) (sliceViewer p) (viewportOffset p)
    (viewportScale p) (materialID p) (useSceneMaterial p)
    (useNormalMapping p) (useFixedTexCoords p) (texCoords p) (baseColor p)
    (linearRoughness p) (metallic p) (originalDisney p) (enableDiffuse p)
    (enableSpecular p) (useBrdfSampling p) (usePdf p) (applyNdotL p)
    (lightIntensity p) (lightColor p) (useGroundPlane p)
    (useDirectionalLight p) (lightDir p) (useEnvMap p)
    (orthographicCamera p) (cameraDistance p) (cameraFovY p)
    (cameraViewportScale p) (readback p) (selectedPixel p).

Definition eta_Viewer (s : BSDFViewer) : BSDFViewer :=
  mkBSDFViewer (mpScene s) (mpEnvProbe s) (mEnvProbeFilename s)
    (mMaterialList s) (mParams s) (mPixelData s) (mPixelDataValid s)
    (mOptionsChanged s) (mpViewerPass s) (mpSampleGenerator s)
    (mPixelDataBuffer s).

Definition eta_PixelData (d : PixelData) : PixelData :=
  mkPixelData (texC d) (pd_baseColor d) (pd_diffuse d) (pd_specular d)
    (pd_linearRoughness d) (pd_metallic d) (pd_T d) (pd_B d) (pd_N d)
    (pd_wo d) (pd_wi d) (pd_output d).

Ltac setter_of eta proj :=
  let e := eval cbv delta [eta] in eta in
  match eval pattern proj in e with
  | ?ctx _ =>
      let r := eval cbv beta in (fun v x => ctx (fun _ => v) x) in
      exact r
  end.

Abbreviation set_field eta proj := (ltac:(setter_of eta proj)) (only parsing).

Definition set_frameDim := set_field eta_Params frameDim.
Definition set_frameCount := set_field eta_Params frameCount.
Definition set_sliceViewer := set_field eta_Params sliceViewer.
Definition set_viewportOffset := set_field eta_Params viewportOffset.
Definition set_viewportScale := set_field eta_Params viewportScale.
Definition set_materialID := set_field eta_Params materialID.
Definition set_useSceneMaterial := set_field eta_Params useSceneMaterial.
Definition set_useNormalMapping := set_field eta_Params useNormalMapping.
Definition set_useFixedTexCoords := set_field eta_Params useFixedTexCoords.
Definition set_texCoords := set_field eta_Params texCoords.
Definition set_baseColor := set_field eta_Params baseColor.
Definition set_linearRoughness := set_field eta_Params linearRoughness.
Definition set_metallic := set_field eta_Params metallic.
Definition set_originalDisney := set_field eta_Params originalDisney.
Definition set_enableDiffuse := set_field eta_Params enableDiffuse.
Definition set_enableSpecular := set_field eta_Params enableSpecular.
Definition set_useBrdfSampling := set_field eta_Params useBrdfSampling.
Definition set_usePdf := set_field eta_Params usePdf.
Definition set_applyNdotL := set_field eta_Params applyNdotL.
Definition set_lightIntensity := set_field eta_Params lightIntensity.
Definition set_lightColor := set_field eta_Params lightColor.
Definition set_useGroundPlane := set_field eta_Params useGroundPlane.
Definition set_useDirectionalLight := set_field eta_Params useDirectionalLight.
Definition set_lightDir := set_field eta_Params lightDir.
Definition set_useEnvMap := set_field eta_Params useEnvMap.
Definition set_orthographicCamera := set_field eta_Params orthographicCamera.
Definition set_cameraDistance := set_field eta_Params cameraDistance.
Definition set_cameraFovY := set_field eta_Params cameraFovY.
Definition set_cameraViewportScale := set_field eta_Params cameraViewportScale.
Definition set_readback := set_field eta_Params readback.
Definition set_selectedPixel := set_field eta_Params selectedPixel.

Definition set_texC := set_field eta_PixelData texC.
Definition set_pd_baseColor := set_field eta_PixelData pd_baseColor.
Definition set_pd_diffuse := set_field eta_PixelData pd_diffuse.
Definition set_pd_specular := set_field eta_PixelData pd_specular.
Definition set_pd_linearRoughness := set_field eta_PixelData pd_linearRoughness.
Definition set_pd_metallic := set_field eta_PixelData pd_metallic.
Definition set_pd_T := set_field eta_PixelData pd_T.
Definition set_pd_B := set_field eta_PixelData pd_B.
Definition set_pd_N := set_field eta_PixelData pd_N.
Definition set_pd_wo := set_field eta_PixelData pd_wo.
Definition set_pd_wi := set_field eta_PixelData pd_wi.
Definition set_pd_output := set_field eta_PixelData pd_output.

Definition set_mpScene := set_field eta_Viewer mpScene.
Definition set_mpEnvProbe := set_field eta_Viewer mpEnvProbe.
Definition set_mEnvProbeFilename := set_field eta_Viewer mEnvProbeFilename.
Definition set_mMaterialList := set_field eta_Viewer mMaterialList.
Definition set_mParams := set_field eta_Viewer mParams.
Definition set_mPixelData := set_field eta_Viewer mPixelData.
Definition set_mPixelDataValid := set_field eta_Viewer mPixelDataValid.
Definition set_mOptionsChanged := set_field eta_Viewer mOptionsChanged.
Definition set_mpViewerPass := set_field eta_Viewer mpViewerPass.
Definition set_mpSampleGenerator := set_field eta_Viewer mpSampleGenerator.
Definition set_mPixelDataBuffer := set_field eta_Viewer mPixelDataBuffer.

(** ** The framework

    Everything the pass asks of the framework in one frame.  The GUI
    widgets take the current value of the variable they are bound to and
    answer with the "changed" result and the value they leave in it. *)

Record Gui : Type := mkGui {
  checkbox : string -> bool -> bool * bool;
  var_float : string -> float -> bool * float;
  var_float2 : string -> float2 -> bool * float2;
  var_float3 : string -> float3 -> bool * float3;
  var_int2 : string -> int2 -> bool * int2;
  rgbColor : string -> float3 -> bool * float3;
  dropdown : string -> DropdownList -> Z -> bool * Z;
  group_open : string -> bool;
  button : string -> bool
}.

Record Host : Type := mkHost {
  (* resources *)
  ComputePass_create :
    string -> string -> string -> list (string * string) -> option ComputePass;
  SampleGenerator_create : Z -> option SampleGenerator;
  StructuredBuffer_create : ComputePass -> string -> Z -> option StructuredBuffer;
  EnvProbe_create : string -> option EnvProbe;
  EnvProbe_setIntoConstantBuffer : EnvProbe -> ComputePass -> string -> bool;
  SampleGenerator_setIntoProgramVars : SampleGenerator -> ComputePass -> bool;
  (* contents of gPixelData once the kernel has run with these parameters *)
  dispatch : BSDFViewerParams -> PixelData;
  (* utilities *)
  getFilenameFromPath : string -> string;
  openFileDialog : option string;
  asserts_enabled : bool;                 (* false when built with NDEBUG *)
  (* declarations of the framework's headers *)
  kRenderPassRefreshFlags : string;
  RenderOptionsChanged : Z;
  SAMPLE_GENERATOR_UNIFORM : Z;
  (* member initialisers of the pass's own header *)
  default_mParams : BSDFViewerParams;
  default_mPixelData : PixelData;
  default_mPixelDataValid : bool;
  default_mOptionsChanged : bool;
  (* single-precision arithmetic *)
  f_of_uint : Z -> float;                 (* (float)u *)
  f_to_int : float -> Z;                  (* (int)f *)
  f_lit : string -> float;                (* a literal such as 1.f *)
  f_mul : float -> float -> float;
  f_div : float -> float -> float;
  f_tan : float -> float;
  f_radians : float -> float
}.

(** ** Control flow: state, exceptions, assertions *)

Inductive failure : Type :=
| Exception (what : string)      (* throw std::exception(what) *)
| Assertion                      (* a failed assert *)
| NullPointer.                   (* a null shared pointer was dereferenced *)

Inductive outcome (A : Type) : Type :=
| Returned (a : A)
| Failed (f : failure).
Arguments Returned {A} a.
Arguments Failed {A} f.

(** What a callback can change: the pass object, the framework's log and
    the render graph's dictionary. *)
Record World : Type := mkWorld {
  this : BSDFViewer;
  warnings : list string;
  dictionary : gmap string Z
}.

Definition M (A : Type) : Type := World -> outcome A * World.

Global Instance M_ret : MRet M := fun A (a : A) w => (Returned a, w).

Global Instance M_bind : MBind M := fun A B (k : A -> M B) (m : M A) w =>
  match m w with
  | (Returned a, w') => k a w'
  | (Failed f, w') => (Failed f, w')
  end.

Definition fail {A} (f : failure) : M A := fun w => (Failed f, w).
Definition throw {A} (what : string) : M A := fail (Exception what).

Definition get : M BSDFViewer := fun w => (Returned (this w), w).
Definition modify (f : BSDFViewer -> BSDFViewer) : M unit :=
  fun w => (Returned tt, mkWorld (f (this w)) (warnings w) (dictionary w)).
Definition modify_params (f : BSDFViewerParams -> BSDFViewerParams) : M unit :=
  modify (fun s => set_mParams (f (mParams s)) s).

Definition logWarning (msg : string) : M unit :=
  fun w => (Returned tt, mkWorld (this w) (warnings w ++ [msg]) (dictionary w)).

Definition get_dict : M (gmap string Z) := fun w => (Returned (dictionary w), w).
Definition put_dict (d : gmap string Z) : M unit :=
  fun w => (Returned tt, mkWorld (this w) (warnings w) d).

(** [p->...] on a shared pointer member. *)
Definition deref {A} (field : BSDFViewer -> option A) : M A :=
  fun w => match field (this w) with
           | Some a => (Returned a, w)
           | None => (Failed NullPointer, w)
           end.

Definition when (b : bool) (m : M unit) : M unit := if b then m else mret tt.

(** Running a callback. *)
Definition result_of {A} (r : outcome A * World) : outcome A := fst r.
Definition world_of {A} (r : outcome A * World) : World := snd r.
Definition viewer_of {A} (r : outcome A * World) : BSDFViewer := this (snd r).

(** ** Input events *)

Inductive MouseEventType : Type :=
| LeftButtonDown | LeftButtonUp | MiddleButtonDown | MiddleButtonUp
| RightButtonDown | RightButtonUp | Move | Wheel.

Record MouseEvent : Type := mkMouseEvent {
  mouse_type : MouseEventType;
  mouse_pos : float2                      (* normalised cursor position *)
}.

Inductive KeyboardEventType : Type := KeyPressed | KeyReleased | Input.

Inductive Key : Type := Key_Left | Key_Right | Key_Other (code : Z).

Record KeyboardEvent : Type := mkKeyboardEvent {
  key_type : KeyboardEventType;
  key : Key
}.

Global Instance MouseEventType_eq_dec : EqDecision MouseEventType.
Proof. solve_decision. Defined.
Global Instance KeyboardEventType_eq_dec : EqDecision KeyboardEventType.
Proof. solve_decision. Defined.
Global Instance Key_eq_dec : EqDecision Key.
Proof. solve_decision. Defined.

(** ** The pass *)

Definition kFileViewerPass : string := "RenderPasses/BSDFViewer/BSDFViewer.cs.slang".
Definition kOutput : string := "output".

Section Pass.

Context (H : Host).

(** A default-constructed object: null pointers, empty containers and the
    header's initialisers. *)
Definition new_BSDFViewer : BSDFViewer :=
  mkBSDFViewer None None EmptyString [] (default_mParams H) (default_mPixelData H)
    (default_mPixelDataValid H) (default_mOptionsChanged H) None None None.

(** [BSDFViewer::init] *)
Definition init : M bool :=
  let defines := [("_MS_DISABLE_ALPHA_TEST", EmptyString); ("_DEFAULT_ALPHA_TEST", EmptyString)] in
  modify (set_mpViewerPass
            (ComputePass_create H kFileViewerPass "main" "6_0" defines));;
  s ← get;
  if mpViewerPass s is None then mret false else
  modify (set_mpSampleGenerator
            (SampleGenerator_create H (SAMPLE_GENERATOR_UNIFORM H)));;
  s ← get;
  if mpSampleGenerator s is None then mret false else
  pass ← deref mpViewerPass;
  modify (set_mPixelDataBuffer (StructuredBuffer_create H pass "gPixelData" 1));;
  s ← get;
  if mPixelDataBuffer s is None then mret false else
  mret true.

(** [BSDFViewer::create]: [Some] is the shared pointer to the new pass,
    [None] is [nullptr]. *)
Definition create : outcome (option BSDFViewer) :=
  let pPass := mkWorld new_BSDFViewer [] ∅ in
  match init pPass with
  | (Returned ok, w) => Returned (if ok then Some (this w) else None)
  | (Failed f, _) => Failed f
  end.

(** [BSDFViewer::compile], given [compileData.defaultTexDims]. *)
Definition compile (defaultTexDims : uint2) : M unit :=
  modify_params (set_frameDim defaultTexDims);;
  s ← get;
  let dim := frameDim (mParams s) in
  let extent := std_min dim.1 dim.2 in
  let xOffset := uint32 (dim.1 - extent) `div` 2 in
  let yOffset := uint32 (dim.2 - extent) `div` 2 in
  modify_params (set_viewportOffset (f_of_uint H xOffset, f_of_uint H yOffset));;
  let scale := f_div H (f_lit H "1.f") (f_of_uint H extent) in
  modify_params (set_viewportScale (scale, scale)).

(** [BSDFViewer::loadEnvMap] *)
Definition loadEnvMap (filename : string) : M bool :=
  match EnvProbe_create H filename with
  | None =>
      logWarning ("Failed to load environment map from " +:+ filename);;
      mret false
  | Some pEnvProbe =>
      modify (set_mpEnvProbe (Some pEnvProbe));;
      probe ← deref mpEnvProbe;
      modify (set_mEnvProbeFilename
                (getFilenameFromPath H (envMapSourceFilename probe)));;
      pass ← deref mpViewerPass;
      probe ← deref mpEnvProbe;
      if negb (EnvProbe_setIntoConstantBuffer H probe pass "gEnvProbe")
      then throw "Failed to bind EnvProbe to program"
      else mret true
  end.

(** The loop of [setScene]: [i] runs from [0] while [i < count]. *)
Definition material_entry (scene : Scene) (i : Z) : Z * string :=
  (i, pretty i +:+ ": " +:+ getMaterialName scene i).

Definition push_materials (scene : Scene) : M unit :=
  foldr (fun i (rest : M unit) =>
           modify (fun s => set_mMaterialList
                              (mMaterialList s ++ [material_entry scene i]) s);;
           rest)
        (mret tt) (seqZ 0 (uint32 (getMaterialCount scene))).

Definition assert (cond : bool) : M unit :=
  if asserts_enabled H && negb cond then fail Assertion else mret tt.

(** [BSDFViewer::setScene] *)
Definition setScene (pScene : option Scene) : M unit :=
  modify (set_mpScene pScene);;
  modify (set_mpEnvProbe None);;
  modify (set_mEnvProbeFilename EmptyString);;
  modify (set_mMaterialList []);;
  modify_params (set_materialID 0);;
  match pScene with
  | None =>
      modify_params (set_useSceneMaterial false);;
      modify_params (set_useEnvMap false)
  | Some _ =>
      scene ← deref mpScene;
      _ ← deref mpViewerPass;
      match getLightProbe scene with
      | Some fn => _ ← loadEnvMap fn; mret tt
      | None => mret tt
      end;;
      s ← get;
      when (negb (bool_decide (is_Some (mpEnvProbe s))))
           (modify_params (set_useEnvMap false));;
      scene ← deref mpScene;
      push_materials scene;;
      s ← get;
      assert (0 <? Z.of_nat (length (mMaterialList s)))
  end.

(** [BSDFViewer::execute] *)
Definition execute : M unit :=
  s ← get;
  when (mOptionsChanged s)
    (dict ← get_dict;
     let prevFlags := default 0 (dict !! kRenderPassRefreshFlags H) in
     put_dict (<[kRenderPassRefreshFlags H :=
                   uint32 (Z.lor prevFlags (RenderOptionsChanged H))]> dict);;
     modify (set_mOptionsChanged false));;
  modify_params (fun p =>
    set_cameraViewportScale
      (f_mul H (f_tan H (f_radians H (f_div H (cameraFovY p) (f_lit H "2.f"))))
             (cameraDistance p)) p);;
  generator ← deref mpSampleGenerator;
  pass ← deref mpViewerPass;
  (if negb (SampleGenerator_setIntoProgramVars H generator pass)
   then throw "Failed to bind sample generator" else mret tt);;
  s ← get;
  let gPixelData := dispatch H (mParams s) in
  modify (set_mPixelDataValid false);;
  when (readback (mParams s))
    (_ ← deref mPixelDataBuffer;
     modify (set_mPixelData gPixelData);;
     modify (set_mPixelDataValid true);;
     s ← get;
     modify_params (set_texCoords (texC (mPixelData s))));;
  modify_params (fun p => set_frameCount (uint32 (frameCount p + 1)) p).

(** [BSDFViewer::onMouseEvent] *)
Definition cursor_pixel (pos : float2) (dim : uint2) : int2 :=
  (int32 (f_to_int H (f_mul H pos.1 (f_of_uint H dim.1))),
   int32 (f_to_int H (f_mul H pos.2 (f_of_uint H dim.2)))).

Definition onMouseEvent (mouseEvent : MouseEvent) : M bool :=
  when (bool_decide (mouse_type mouseEvent = LeftButtonDown))
    (s ← get;
     let dim := frameDim (mParams s) in
     let p := cursor_pixel (mouse_pos mouseEvent) dim in
     let hi := (int32 (int32 dim.1 - 1), int32 (int32 dim.2 - 1)) in
     modify_params (set_selectedPixel
                      (glm_clamp p.1 0 hi.1, glm_clamp p.2 0 hi.2)));;
  mret false.

(** [BSDFViewer::onKeyEvent] *)
Definition onKeyEvent (keyEvent : KeyboardEvent) : M bool :=
  if bool_decide (key_type keyEvent = KeyPressed) then
    if bool_decide (key keyEvent = Key_Left) || bool_decide (key keyEvent = Key_Right)
    then
      s ← get;
      let id := materialID (mParams s) in
      let size := Z.of_nat (length (mMaterialList s)) in
      let lastId := if 0 <? size then uint32 (uint32 size - 1) else 0 in
      let id :=
        if bool_decide (key keyEvent = Key_Left)
        then (if 0 <? id then uint32 (id - 1) else lastId)
        else if bool_decide (key keyEvent = Key_Right)
        then (if id <? lastId then uint32 (id + 1) else 0)
        else id in
      when (negb (id =? materialID (mParams s)))
        (modify (set_mOptionsChanged true));;
      modify_params (set_materialID id);;
      mret true
    else mret false
  else mret false.

(** [BSDFViewer::renderUI].  A widget bound to a member reads it, leaves
    its new value in it and returns whether it changed; [dirty] is the
    local of the source, handed from one group of widgets to the next. *)
Definition on_params {A} (w : A -> bool * A)
    (field : BSDFViewerParams -> A)
    (set : A -> BSDFViewerParams -> BSDFViewerParams) : M bool :=
  s ← get;
  let r := w (field (mParams s)) in
  modify_params (set r.2);;
  mret r.1.

Definition on_pixel {A} (w : A -> bool * A)
    (field : PixelData -> A) (set : A -> PixelData -> PixelData) : M bool :=
  s ← get;
  let r := w (field (mPixelData s)) in
  modify (fun s => set_mPixelData (set r.2 (mPixelData s)) s);;
  mret r.1.

Definition renderUI_material (widget : Gui) (dirty : bool) : M bool :=
  s ← get;
  let prevMode := useSceneMaterial (mParams s) in
  _ ← on_params (checkbox widget "Use scene material")
        useSceneMaterial set_useSceneMaterial;
  s ← get;
  when (negb (bool_decide (is_Some (mpScene s))))
       (modify_params (set_useSceneMaterial false));;
  s ← get;
  let dirty := dirty || negb (eqb (useSceneMaterial (mParams s)) prevMode) in
  if useSceneMaterial (mParams s) then
    assert (0 <? Z.of_nat (length (mMaterialList s)));;
    c1 ← on_params (fun id => let r := dropdown widget "Materials" (mMaterialList s) id
                              in (r.1, uint32 r.2))
           materialID set_materialID;
    c2 ← on_params (checkbox widget "Normal mapping")
           useNormalMapping set_useNormalMapping;
    c3 ← on_params (checkbox widget "Fixed tex coords")
           useFixedTexCoords set_useFixedTexCoords;
    c4 ← on_params (var_float2 widget "Tex coords") texCoords set_texCoords;
    mret (dirty || c1 || c2 || c3 || c4)
  else
    c1 ← on_params (rgbColor widget "Base color") baseColor set_baseColor;
    c2 ← on_params (var_float widget "Roughness") linearRoughness set_linearRoughness;
    c3 ← on_params (var_float widget "Metallic") metallic set_metallic;
    mret (dirty || c1 || c2 || c3).

Definition renderUI_bsdf (widget : Gui) (dirty : bool) : M bool :=
  c1 ← on_params (checkbox widget "Original Disney BRDF")
         originalDisney set_originalDisney;
  c2 ← on_params (checkbox widget "Enable diffuse") enableDiffuse set_enableDiffuse;
  c3 ← on_params (checkbox widget "Enable specular") enableSpecular set_enableSpecular;
  c4 ← on_params (checkbox widget "Use BRDF sampling")
         useBrdfSampling set_useBrdfSampling;
  c5 ← on_params (checkbox widget "Use pdf") usePdf set_usePdf;
  c6 ← on_params (checkbox widget "Multiply BSDF slice by NdotL")
         applyNdotL set_applyNdotL;
  mret (dirty || c1 || c2 || c3 || c4 || c5 || c6).

Definition renderUI_light (widget : Gui) (dirty : bool) : M bool :=
  c1 ← on_params (var_float widget "Light intensity")
         lightIntensity set_lightIntensity;
  c2 ← on_params (rgbColor widget "Light color") lightColor set_lightColor;
  c3 ← on_params (checkbox widget "Show ground plane")
         useGroundPlane set_useGroundPlane;
  (* Directional lighting *)
  c4 ← on_params (checkbox widget "Directional light")
         useDirectionalLight set_useDirectionalLight;
  let dirty := dirty || c1 || c2 || c3 || c4 in
  s ← get;
  dirty ← (if useDirectionalLight (mParams s) then
             modify_params (set_useEnvMap false);;
             c ← on_params (var_float3 widget "Light direction") lightDir set_lightDir;
             mret (dirty || c)
           else mret dirty);
  (* Envmap lighting *)
  s ← get;
  dirty ← (if mpEnvProbe s is Some _ then
             c ← on_params (checkbox widget ("Envmap: " +:+ mEnvProbeFilename s))
                   useEnvMap set_useEnvMap;
             s ← get;
             when (useEnvMap (mParams s))
                  (modify_params (set_useDirectionalLight false));;
             mret (dirty || c)
           else mret dirty);
  if button widget "Load envmap" then
    match openFileDialog H with
    | Some fn =>
        loaded ← loadEnvMap fn;
        if (loaded : bool) then
          modify_params (set_useDirectionalLight false);;
          modify_params (set_useEnvMap true);;
          mret true
        else mret dirty
    | None => mret dirty
    end
  else mret dirty.

Definition renderUI_camera (widget : Gui) (dirty : bool) : M bool :=
  c1 ← on_params (checkbox widget "Orthographic camera")
         orthographicCamera set_orthographicCamera;
  let dirty := dirty || c1 in
  s ← get;
  if negb (orthographicCamera (mParams s)) then
    c2 ← on_params (var_float widget "Viewing distance")
           cameraDistance set_cameraDistance;
    c3 ← on_params (var_float widget "Vertical FOV (degrees)")
           cameraFovY set_cameraFovY;
    mret (dirty || c2 || c3)
  else mret dirty.

Definition renderUI_pixel (widget : Gui) : M unit :=
  _ ← on_params (var_int2 widget "Pixel") selectedPixel set_selectedPixel;
  s ← get;
  when (mPixelDataValid s)
    (_ ← on_pixel (var_float2 widget "texC") texC set_texC;
     _ ← on_pixel (var_float3 widget "baseColor") pd_baseColor set_pd_baseColor;
     _ ← on_pixel (var_float3 widget "diffuse") pd_diffuse set_pd_diffuse;
     _ ← on_pixel (var_float3 widget "specular") pd_specular set_pd_specular;
     _ ← on_pixel (var_float widget "roughness")
           pd_linearRoughness set_pd_linearRoughness;
     _ ← on_pixel (var_float widget "metallic") pd_metallic set_pd_metallic;
     _ ← on_pixel (var_float3 widget "T") pd_T set_pd_T;
     _ ← on_pixel (var_float3 widget "B") pd_B set_pd_B;
     _ ← on_pixel (var_float3 widget "N") pd_N set_pd_N;
     _ ← on_pixel (var_float3 widget "wo") pd_wo set_pd_wo;
     _ ← on_pixel (var_float3 widget "wi") pd_wi set_pd_wi;
     _ ← on_pixel (var_float3 widget "output") pd_output set_pd_output;
     mret tt).

Definition renderUI (widget : Gui) : M unit :=
  let dirty := false in
  c ← on_params (checkbox widget "Enable BSDF slice viewer")
        sliceViewer set_sliceViewer;
  let dirty := dirty || c in
  dirty ← (if group_open widget "Material"
           then renderUI_material widget dirty else mret dirty);
  dirty ← (if group_open widget "BSDF"
           then renderUI_bsdf widget dirty else mret dirty);
  dirty ← (if group_open widget "Light"
           then renderUI_light widget dirty else mret dirty);
  dirty ← (if group_open widget "Camera"
           then renderUI_camera widget dirty else mret dirty);
  s ← get;
  let readTexCoords :=
    useSceneMaterial (mParams s) && negb (useFixedTexCoords (mParams s)) in
  modify_params (set_readback (readTexCoords || group_open widget "Pixel data"));;
  when (group_open widget "Pixel data") (renderUI_pixel widget);;
  when dirty (modify (set_mOptionsChanged true)).

End Pass.

(** ** Hosts and events for concrete runs

    A framework that creates every resource.
    Its float arithmetic is a stand-in on bit patterns, exact for the zero
    pattern used below ([0.0f * x = 0.0f], [(int)0.0f = 0]). *)
Module Demo.

Definition params0 : BSDFViewerParams :=
  mkParams (0, 0) 0 false (0, 0) (0, 0) 0 false false false (0, 0) (0, 0, 0)
    0 0 false true true false false false 0 (0, 0, 0) false false (0, 0, 0)
    false false 0 0 0 false (0, 0).

Definition pixel0 : PixelData :=
  mkPixelData (0, 0) (0, 0, 0) (0, 0, 0) (0, 0, 0) 0 0 (0, 0, 0) (0, 0, 0)
    (0, 0, 0) (0, 0, 0) (0, 0, 0) (0, 0, 0).

(** [probes] answers [EnvProbe::create], [binds] the binding of a probe. *)
Definition host (probes : string -> option EnvProbe) (binds : bool) : Host :=
  mkHost
    (fun file _ _ _ => Some (mkComputePass file))
    (fun type => Some (mkSampleGenerator type))
    (fun _ name _ => Some (mkStructuredBuffer name))
    probes
    (fun _ _ _ => binds)
    (fun _ _ => true)
    (fun p => set_texC (texCoords p) pixel0)
    (fun path => path)
    None
    true
    "_refreshFlags" 1 0
    params0 pixel0 false false
    (fun u => u) (fun f => f) (fun _ => 0)
    (fun a b => a * b) (fun a b => a `div` b) (fun a => a) (fun a => a).

Definition no_probe : string -> option EnvProbe := fun _ => None.
Definition any_probe : string -> option EnvProbe :=
  fun file => Some (mkEnvProbe file).

(** A pass as [create] returns it. *)
Definition viewer0 : BSDFViewer :=
  mkBSDFViewer None None EmptyString [] params0 pixel0 false false
    (Some (mkComputePass kFileViewerPass)) (Some (mkSampleGenerator 0))
    (Some (mkStructuredBuffer "gPixelData")).

Definition world0 : World := mkWorld viewer0 [] ∅.

Definition with_materials (l : DropdownList) (id : Z) (w : World) : World :=
  mkWorld (set_mMaterialList l (set_mParams (set_materialID id (mParams (this w))) (this w)))
    (warnings w) (dictionary w).

Definition with_frameDim (dim : uint2) (w : World) : World :=
  mkWorld (set_mParams (set_frameDim dim (mParams (this w))) (this w))
    (warnings w) (dictionary w).

End Demo.

(** ** Vocabulary of the statements *)

Definition load_warning (filename : string) : string :=
  "Failed to load environment map from " +:+ filename.

Definition arrow (k : Key) : Prop := k = Key_Left \/ k = Key_Right.

(** The index an arrow key moves to, as [onKeyEvent] computes it. *)
Definition key_target (k : Key) (size id : Z) : Z :=
  let lastId := if 0 <? size then uint32 (uint32 size - 1) else 0 in
  match k with
  | Key_Left => if 0 <? id then uint32 (id - 1) else lastId
  | Key_Right => if id <? lastId then uint32 (id + 1) else 0
  | Key_Other _ => id
  end.

Definition viewer_defines : list (string * string) :=
  [("_MS_DISABLE_ALPHA_TEST", EmptyString); ("_DEFAULT_ALPHA_TEST", EmptyString)].

Definition fully_initialized (s : BSDFViewer) : Prop :=
  is_Some (mpViewerPass s) /\ is_Some (mpSampleGenerator s) /\
  is_Some (mPixelDataBuffer s).

Definition material_list (scene : Scene) : DropdownList :=
  material_entry scene <$> seqZ 0 (uint32 (getMaterialCount scene)).

(** [ensures m w Q]: if [m] runs to completion from [w], its result and final
    world satisfy [Q]. *)
Definition ensures {A} (m : M A) (w : World) (Q : A -> World -> Prop) : Prop :=
  match m w with
  | (Returned a, w') => Q a w'
  | (Failed _, _) => True
  end.

Definition with_viewer (s : BSDFViewer) (w : World) : World :=
  mkWorld s (warnings w) (dictionary w).

(** What the light group reads: the two switches, the probe and its name. *)
Definition light_state (s : BSDFViewer) : bool * bool * option EnvProbe * string :=
  (useDirectionalLight (mParams s), useEnvMap (mParams s),
   mpEnvProbe s, mEnvProbeFilename s).

Definition light_switches (s : BSDFViewer) : bool * bool :=
  (useDirectionalLight (mParams s), useEnvMap (mParams s)).

Definition exclusive_lights (s : BSDFViewer) : Prop :=
  ~ (useDirectionalLight (mParams s) = true /\ useEnvMap (mParams s) = true).

(** A group of widgets that leaves the light state alone and never
    lowers [dirty]. *)
Definition keeps_light_state (dirty : bool) (w : World) : bool -> World -> Prop :=
  fun dirty' w' =>
    light_state (this w') = light_state (this w) /\
    (dirty = true -> dirty' = true).

Section Statements.

Context (H : Host).

(** The three sub-resources of a pass, in the order [init] constructs
  them; the buffer is created from the program of the compute pass. *)
Definition constructed (pass : ComputePass) (generator : SampleGenerator)
  (buffer : StructuredBuffer) : Prop :=
ComputePass_create H kFileViewerPass "main" "6_0" viewer_defines = Some pass /\
SampleGenerator_create H (SAMPLE_GENERATOR_UNIFORM H) = Some generator /\
StructuredBuffer_create H pass "gPixelData" 1 = Some buffer.

Definition initialized_with (pass : ComputePass) (generator : SampleGenerator)
  (buffer : StructuredBuffer) : BSDFViewer :=
set_mPixelDataBuffer (Some buffer)
  (set_mpSampleGenerator (Some generator)
     (set_mpViewerPass (Some pass) (new_BSDFViewer H))).

(** The environment map of the scene's light probe, if there is one, can
  be bound: the one way [setScene] can throw. *)
Definition light_probe_binds (scene : Scene) (pass : ComputePass) : Prop :=
forall fn probe,
  getLightProbe scene = Some fn ->
  EnvProbe_create H fn = Some probe ->
  EnvProbe_setIntoConstantBuffer H probe pass "gEnvProbe" = true.

(** The parameter block uploaded for the dispatch. *)
Definition uploaded_params (p : BSDFViewerParams) : BSDFViewerParams :=
set_cameraViewportScale
  (f_mul H (f_tan H (f_radians H (f_div H (cameraFovY p) (f_lit H "2.f"))))
     (cameraDistance p)) p.

Definition refreshed_flags (d : gmap string Z) : Z :=
uint32 (Z.lor (default 0 (d !! kRenderPassRefreshFlags H)) (RenderOptionsChanged H)).

(** One call of the framework into the pass. *)
Inductive callback : Type :=
| Compile (defaultTexDims : uint2)
| SetScene (pScene : option Scene)
| Execute
| RenderUI (widget : Gui)
| OnMouseEvent (mouseEvent : MouseEvent)
| OnKeyEvent (keyEvent : KeyboardEvent).

Definition run_callback (c : callback) : M unit :=
  match c with
  | Compile dims => compile H dims
  | SetScene pScene => setScene H pScene
  | Execute => execute H
  | RenderUI widget => renderUI H widget
  | OnMouseEvent ev => _ ← onMouseEvent H ev; mret tt
  | OnKeyEvent ev => _ ← onKeyEvent ev; mret tt
  end.

Context (widget : Gui).

(** The "Load envmap" button was pressed, a file was chosen and its probe
  could be created. *)
Definition envmap_loaded : bool :=
button widget "Load envmap" &&
match openFileDialog H with
| Some fn => bool_decide (is_Some (EnvProbe_create H fn))
| None => false
end.

(** The two switches after the light group, from what it read. *)
Definition light_switches_after (st : bool * bool * option EnvProbe * string)
: bool * bool :=
let '(dir, env, probe, name) := st in
let d1 := (checkbox widget "Directional light" dir).2 in
let e0 := if d1 then false else env in
let e1 := if probe is Some _
          then (checkbox widget ("Envmap: " +:+ name) e0).2 else e0 in
let d2 := if probe is Some _ then (if e1 then false else d1) else d1 in
if envmap_loaded then (false, true) else (d2, e1).

End Statements.

Module DemoUI.

(** The user ticks "Directional light"; every group is open. *)
Definition tick_directional : Gui :=
  mkGui (fun label v => if String.eqb label "Directional light"
                        then (true, true) else (false, v))
        (fun _ v => (false, v)) (fun _ v => (false, v))
        (fun _ v => (false, v)) (fun _ v => (false, v)) (fun _ v => (false, v))
        (fun _ _ v => (false, v)) (fun _ => true) (fun _ => false).

(** Environment lighting is on when the frame starts. *)
Definition envmap_world : World :=
  mkWorld (set_mParams (set_useEnvMap true Demo.params0) Demo.viewer0) [] ∅.

End DemoUI.

(** ** Sequences of events *)

(** The world after a pressed key, and after [n] presses of the same key. *)
Definition press (k : Key) (w : World) : World :=
  world_of (onKeyEvent (mkKeyboardEvent KeyPressed k) w).

Definition presses (k : Key) (n : nat) (w : World) : World :=
  Nat.iter n (press k) w.

(** A left click at [pos]. *)
Definition click (pos : float2) : MouseEvent := mkMouseEvent LeftButtonDown pos.

(** Every member of the pass except the selected pixel. *)
Definition besides_selectedPixel (s : BSDFViewer) : BSDFViewer :=
  set_mParams (set_selectedPixel (0, 0) (mParams s)) s.

(** Every member of the pass except the material index and the
    options-changed flag. *)
Definition besides_material_index (s : BSDFViewer) : BSDFViewer :=
  set_mOptionsChanged false (set_mParams (set_materialID 0 (mParams s)) s).

(** Every member of the pass except the probe and its display name. *)
Definition besides_probe (s : BSDFViewer) : BSDFViewer :=
  set_mEnvProbeFilename EmptyString (set_mpEnvProbe None s).

(** The world after [n] frames, each one call of [execute]. *)
Definition frames (H : Host) (n : nat) (w : World) : World :=
  Nat.iter n (fun w => world_of (execute H w)) w.

(** The pass with the options-changed flag raised, as [renderUI] and
    [onKeyEvent] raise it. *)
Definition raise_options_changed (w : World) : World :=
  mkWorld (set_mOptionsChanged true (this w)) (warnings w) (dictionary w).

Definition blank_pixel : PixelData :=
  mkPixelData (0, 0) (0, 0, 0) (0, 0, 0) (0, 0, 0) 0 0 (0, 0, 0) (0, 0, 0)
    (0, 0, 0) (0, 0, 0) (0, 0, 0) (0, 0, 0).

(** Every member of the pass except what [execute] writes: the derived
    camera scale, the texture coordinates, the frame counter, the pixel
    record with its validity flag, and the options-changed flag. *)
Definition besides_frame_outputs (s : BSDFViewer) : BSDFViewer :=
  set_mOptionsChanged false
    (set_mPixelDataValid false
       (set_mPixelData blank_pixel
          (set_mParams
             (set_cameraViewportScale 0
                (set_texCoords (0, 0) (set_frameCount 0 (mParams s)))) s))).

(** ** Labels *)

(** A decimal digit, and a string of decimal digits. *)
Definition is_digit (c : Ascii.ascii) : bool :=
  let n := Ascii.nat_of_ascii c in (48 <=? n)%nat && (n <=? 57)%nat.

Fixpoint all_digits (s : string) : bool :=
  match s with
  | EmptyString => true
  | String c s' => is_digit c && all_digits s'
  end.

(** ** Sequences of callbacks *)

(** The world after the framework made the calls [cs], one after the other,
    whatever each of them returned or threw. *)
Definition after (H : Host) (cs : list callback) (w : World) : World :=
  fold_left (fun w c => world_of (run_callback H c w)) cs w.

(** A computation that, on an initialized pass, dereferences no null
    pointer and leaves the pass initialized. *)
Definition always_safe {A} (m : M A) : Prop :=
  forall w, fully_initialized (this w) ->
    result_of (m w) <> Failed NullPointer /\ fully_initialized (viewer_of (m w)).

(** ** What a computation keeps *)

(** [maintains I m]: from a world satisfying [I], the world in which [m]
    ends (returning or failing) satisfies [I]. *)
Definition maintains {A} (I : World -> Prop) (m : M A) : Prop :=
  forall w, I w -> I (world_of (m w)).

(** The members of the pass that only sizing, scene attachment and the frame
    loop write. *)
Definition frame_and_scene (w : World) :=
  (frameDim (mParams (this w)), frameCount (mParams (this w)),
   viewportOffset (mParams (this w)), viewportScale (mParams (this w)),
   cameraViewportScale (mParams (this w)),
   mMaterialList (this w), mpScene (this w), mPixelDataValid (this w),
   (mpViewerPass (this w), mpSampleGenerator (this w), mPixelDataBuffer (this w)),
   dictionary w).

(** The members each group of widgets edits. *)
Definition material_view (w : World) :=
  let p := mParams (this w) in
  (useSceneMaterial p, materialID p, useNormalMapping p, useFixedTexCoords p,
   texCoords p, baseColor p, linearRoughness p, metallic p).

Definition bsdf_view (w : World) :=
  let p := mParams (this w) in
  (originalDisney p, enableDiffuse p, enableSpecular p, useBrdfSampling p,
   usePdf p, applyNdotL p).

Definition light_view (w : World) :=
  let p := mParams (this w) in
  (lightIntensity p, lightColor p, useGroundPlane p, useDirectionalLight p,
   lightDir p, useEnvMap p, mpEnvProbe (this w), mEnvProbeFilename (this w),
   warnings w).

Definition camera_view (w : World) :=
  let p := mParams (this w) in
  (orthographicCamera p, cameraDistance p, cameraFovY p).

Definition pixel_view (w : World) :=
  (selectedPixel (mParams (this w)), mPixelData (this w)).

(** Some checkbox of the BSDF group reports a change when shown the
    parameters [p]. *)
Definition bsdf_changed (widget : Gui) (p : BSDFViewerParams) : bool :=
  (checkbox widget "Original Disney BRDF" (originalDisney p)).1 ||
  (checkbox widget "Enable diffuse" (enableDiffuse p)).1 ||
  (checkbox widget "Enable specular" (enableSpecular p)).1 ||
  (checkbox widget "Use BRDF sampling" (useBrdfSampling p)).1 ||
  (checkbox widget "Use pdf" (usePdf p)).1 ||
  (checkbox widget "Multiply BSDF slice by NdotL" (applyNdotL p)).1.

(** The readback option agrees with what needs the pixel record: texture
    coordinates taken from the selected pixel, or the open inspector. *)
Definition readback_configured (widget : Gui) (w : World) : Prop :=
  let p := mParams (this w) in
  readback p =
    (useSceneMaterial p && negb (useFixedTexCoords p))
    || group_open widget "Pixel data".

(** ** Options and what backs them *)

(** The scene material is used only with a scene attached, and the
    environment map only with a probe loaded. *)
Definition options_backed (w : World) : Prop :=
  (useSceneMaterial (mParams (this w)) = true -> is_Some (mpScene (this w))) /\
  (useEnvMap (mParams (this w)) = true -> is_Some (mpEnvProbe (this w))).

(** [keeps I m]: a run of [m] that completes from a world satisfying [I]
    ends in a world satisfying [I]. *)
Definition keeps {A} (I : World -> Prop) (m : M A) : Prop :=
  forall w, ensures m w (fun _ w' => I w -> I w').

(** ** Every way a run can end *)

(** [outcomes m w R F]: if [m] returns from [w], its result and final world
    satisfy [R]; if it fails, the world it fails in satisfies [F]. *)
Definition outcomes {A} (m : M A) (w : World)
    (R : A -> World -> Prop) (F : World -> Prop) : Prop :=
  match m w with
  | (Returned a, w') => R a w'
  | (Failed _, w') => F w'
  end.


Module DemoMore.

(** A framework on which no program binding succeeds. *)
Definition host_nobind : Host :=
  mkHost
    (fun file _ _ _ => Some (mkComputePass file))
    (fun type => Some (mkSampleGenerator type))
    (fun _ name _ => Some (mkStructuredBuffer name))
    Demo.any_probe (fun _ _ _ => false) (fun _ _ => false)
    (fun _ => Demo.pixel0) (fun path => path) None true
    "_refreshFlags" 1 0 Demo.params0 Demo.pixel0 false false
    (fun u => u) (fun f => f) (fun _ => 0)
    (fun a b => a * b) (fun a b => a `div` b) (fun a => a) (fun a => a).

(** The pixel record of the previous frame is still marked valid; readback
    is off. *)
Definition stale_valid_world : World :=
  mkWorld (set_mPixelDataValid true Demo.viewer0) [] ∅.




Definition two_materials : Scene :=
  mkScene 2 (fun i => if i =? 0 then "gold" else "glass") (Some "sky.hdr").

End DemoMore.

(** ** Reasoning about runs *)

Ltac unfold_M :=
  unfold mbind, M_bind, mret, M_ret, get, modify_params, modify, logWarning,
    get_dict, put_dict, deref, when, throw, fail,
    result_of, world_of, viewer_of in *.

(** Comparisons of event tags and pointer tests, decided on the spot. *)
Ltac decide_tests :=
  repeat first
    [ rewrite bool_decide_eq_true_2 by (done || congruence || eauto)
    | rewrite bool_decide_eq_false_2 by
        (done || congruence || (intros [? ?]; congruence)) ].

(** * loadEnvMap *)

Section LoadEnvMap.

Context (H : Host).

Lemma loadEnvMap_no_probe filename w :
  EnvProbe_create H filename = None ->
  loadEnvMap H filename w =
    (Returned false,
     mkWorld (this w) (warnings w ++ [load_warning filename]) (dictionary w)).
Proof.
  intros Hnone. unfold loadEnvMap. rewrite Hnone. reflexivity.
Qed.

(** With a probe in hand, the call returns [true] or throws, and by then
    the probe and its display name have been stored. *)
Lemma loadEnvMap_probe filename probe pass w :
  EnvProbe_create H filename = Some probe ->
  mpViewerPass (this w) = Some pass ->
  loadEnvMap H filename w =
    (if EnvProbe_setIntoConstantBuffer H probe pass "gEnvProbe"
     then Returned true
     else Failed (Exception "Failed to bind EnvProbe to program"),
     mkWorld
       (set_mEnvProbeFilename
          (getFilenameFromPath H (envMapSourceFilename probe))
          (set_mpEnvProbe (Some probe) (this w)))
       (warnings w) (dictionary w)).
Proof.
  intros Hsome Hpass. unfold loadEnvMap. rewrite Hsome.
  unfold_M. cbn. rewrite Hpass. cbn.
  destruct (EnvProbe_setIntoConstantBuffer H probe pass "gEnvProbe"); reflexivity.
Qed.

Lemma loadEnvMap_false_iff filename w :
  result_of (loadEnvMap H filename w) = Returned false <->
  EnvProbe_create H filename = None.
Proof.
  split.
  - destruct (EnvProbe_create H filename) as [probe|] eqn:E; [|done].
    unfold loadEnvMap. rewrite E. unfold_M. cbn.
    destruct (mpViewerPass (this w)) as [pass|]; cbn; [|done].
    destruct (EnvProbe_setIntoConstantBuffer H probe pass "gEnvProbe"); done.
  - intros E. rewrite (loadEnvMap_no_probe _ _ E). reflexivity.
Qed.

(** C1 (as amended): when the environment probe cannot be created from the
    file name, [loadEnvMap] returns [false], logs one warning naming the
    file, and leaves the pass object (probe handle, display name, every
    parameter) and the dictionary as they were. *)
Theorem loadEnvMap_failure_keeps_state filename w :
  EnvProbe_create H filename = None ->
  let r := loadEnvMap H filename w in
  result_of r = Returned false /\
  warnings (world_of r) = warnings w ++ [load_warning filename] /\
  this (world_of r) = this w /\
  dictionary (world_of r) = dictionary w.
Proof.
  intros E r. subst r. rewrite (loadEnvMap_no_probe _ _ E). done.
Qed.

End LoadEnvMap.

Lemma loadEnvMap_failure_keeps_state_witness :
  let r := loadEnvMap (Demo.host Demo.no_probe true) "sky.hdr" Demo.world0 in
  result_of r = Returned false /\
  warnings (world_of r) = ["Failed to load environment map from sky.hdr"] /\
  this (world_of r) = Demo.viewer0 /\
  dictionary (world_of r) = ∅.
Proof.
  apply (loadEnvMap_failure_keeps_state (Demo.host Demo.no_probe true)
           "sky.hdr" Demo.world0).
  reflexivity.
Defined.

(** C1 as stated fails on the other failure path of [loadEnvMap]: when the
    probe is created but cannot be bound, the call fails by throwing, with
    no warning and no [false], after the probe handle and its display name
    have been overwritten. *)
Lemma loadEnvMap_bind_failure_mutates :
  ~ (let r := loadEnvMap (Demo.host Demo.any_probe false) "sky.hdr" Demo.world0 in
     result_of r <> Returned true ->
     result_of r = Returned false /\
     (exists msg, warnings (world_of r) = warnings Demo.world0 ++ [msg]) /\
     this (world_of r) = this Demo.world0).
Proof.
  vm_compute. intros Hclaim.
  destruct Hclaim as [Hfalse _]; [discriminate | discriminate Hfalse].
Qed.

(** * onKeyEvent *)

Section KeyEvents.

Lemma onKeyEvent_arrow k w :
  arrow k ->
  let s := this w in
  let id' := key_target k (Z.of_nat (length (mMaterialList s)))
               (materialID (mParams s)) in
  onKeyEvent (mkKeyboardEvent KeyPressed k) w =
    (Returned true,
     mkWorld
       (set_mParams (set_materialID id' (mParams s))
          (if negb (id' =? materialID (mParams s))
           then set_mOptionsChanged true s else s))
       (warnings w) (dictionary w)).
Proof.
  intros [-> | ->]; cbn; unfold onKeyEvent, key_target; cbn;
    decide_tests; unfold_M; cbn;
    match goal with |- context [negb ?b] => destruct b end; reflexivity.
Qed.

Lemma onKeyEvent_ignores ev w :
  key_type ev <> KeyPressed \/ ~ arrow (key ev) ->
  onKeyEvent ev w = (Returned false, w).
Proof.
  destruct ev as [t k]; cbn. unfold onKeyEvent, arrow; cbn.
  intros [Ht | Hk].
  - by decide_tests.
  - assert (k <> Key_Left /\ k <> Key_Right) as [Hl Hr] by (split; intros ->; auto).
    rewrite !(bool_decide_eq_false_2 _ Hl), !(bool_decide_eq_false_2 _ Hr).
    cbn. by destruct (bool_decide _).
Qed.

Lemma last_index size : 1 <= size <= 2 ^ 32 -> uint32 (uint32 size - 1) = size - 1.
Proof.
  intros Hs. unfold uint32.
  destruct (Z.eq_dec size (2 ^ 32)) as [-> | Hne]; [reflexivity|].
  rewrite (Z.mod_small size) by lia. apply Z.mod_small. lia.
Qed.

Lemma key_target_right size id :
  1 <= size <= 2 ^ 32 -> 0 <= id <= size - 1 ->
  key_target Key_Right size id = if id <? size - 1 then id + 1 else 0.
Proof.
  intros Hs Hid. unfold key_target.
  destruct (0 <? size) eqn:E; [|apply Z.ltb_ge in E; lia].
  rewrite last_index by done.
  destruct (id <? size - 1) eqn:E'; [|reflexivity].
  apply Z.ltb_lt in E'. unfold uint32. apply Z.mod_small. lia.
Qed.

Lemma key_target_left size id :
  1 <= size <= 2 ^ 32 -> 0 <= id <= size - 1 ->
  key_target Key_Left size id = if 0 <? id then id - 1 else size - 1.
Proof.
  intros Hs Hid. unfold key_target.
  destruct (0 <? size) eqn:E; [|apply Z.ltb_ge in E; lia].
  rewrite last_index by done.
  destruct (0 <? id) eqn:E'; [|reflexivity].
  apply Z.ltb_lt in E'. unfold uint32. apply Z.mod_small. lia.
Qed.

(** C2: on a key-pressed event, for a material list of [n >= 1] entries
    (a count that fits the 32-bit index, as [setScene] builds it) and a
    current index [id] in [0, n-1]: Right moves to [id+1], or to [0] from
    the last entry; Left moves to [id-1], or to [n-1] from the first. *)
Theorem onKeyEvent_cycles_with_wraparound ev w :
  let n := Z.of_nat (length (mMaterialList (this w))) in
  let id := materialID (mParams (this w)) in
  key_type ev = KeyPressed ->
  1 <= n <= 2 ^ 32 ->
  0 <= id <= n - 1 ->
  let id' := materialID (mParams (viewer_of (onKeyEvent ev w))) in
  (key ev = Key_Right -> id' = if id <? n - 1 then id + 1 else 0) /\
  (key ev = Key_Left -> id' = if 0 <? id then id - 1 else n - 1).
Proof.
  intros n id Ht Hn Hid. destruct ev as [t k]; cbn in Ht; subst t.
  split; cbn; intros ->.
  - rewrite onKeyEvent_arrow by (right; reflexivity). cbn.
    apply key_target_right; done.
  - rewrite onKeyEvent_arrow by (left; reflexivity). cbn.
    apply key_target_left; done.
Qed.

(** C4 (as amended): a key-pressed Left or Right arrow is handled (the
    callback returns [true]) and raises the options-changed flag exactly
    when it moves the material index; otherwise the flag keeps its value.
    The index moves whenever the list has at least two entries and the
    index is in range. *)
Theorem onKeyEvent_marks_changed_when_index_moves ev w :
  let n := Z.of_nat (length (mMaterialList (this w))) in
  let id := materialID (mParams (this w)) in
  key_type ev = KeyPressed ->
  arrow (key ev) ->
  let r := onKeyEvent ev w in
  let id' := materialID (mParams (viewer_of r)) in
  result_of r = Returned true /\
  mOptionsChanged (viewer_of r) = mOptionsChanged (this w) || negb (id' =? id) /\
  (2 <= n <= 2 ^ 32 -> 0 <= id <= n - 1 ->
   id' <> id /\ mOptionsChanged (viewer_of r) = true).
Proof.
  intros n id Ht Hk. destruct ev as [t k]; cbn in Ht, Hk; subst t.
  cbn zeta. rewrite (onKeyEvent_arrow _ _ Hk). cbn.
  fold n id. set (id' := key_target k n id).
  assert (Hflag :
    mOptionsChanged (if negb (id' =? id)
                     then set_mOptionsChanged true (this w) else this w)
    = mOptionsChanged (this w) || negb (id' =? id)).
  { destruct (id' =? id); cbn; [by rewrite orb_false_r | by rewrite orb_true_r]. }
  split; [reflexivity|]. split; [exact Hflag|].
  intros Hn Hid.
  assert (Hne : id' <> id).
  { subst id'. destruct Hk as [-> | ->].
    - rewrite key_target_left by lia. destruct (0 <? id) eqn:E; [lia|].
      apply Z.ltb_ge in E. lia.
    - rewrite key_target_right by lia. destruct (id <? n - 1) eqn:E; [lia|].
      apply Z.ltb_ge in E. lia. }
  split; [exact Hne|]. rewrite Hflag.
  apply Z.eqb_neq in Hne. rewrite Hne. apply orb_true_r.
Qed.

End KeyEvents.

Lemma onKeyEvent_cycles_with_wraparound_witness :
  let w := Demo.with_materials [(0, "0: a"); (1, "1: b"); (2, "2: c")] 2 Demo.world0 in
  let ev := mkKeyboardEvent KeyPressed Key_Right in
  let id' := materialID (mParams (viewer_of
               (onKeyEvent ev w))) in
  (key ev = Key_Right -> id' = 0) /\ (key ev = Key_Left -> id' = 1).
Proof.
  apply (onKeyEvent_cycles_with_wraparound
           (mkKeyboardEvent KeyPressed Key_Right)
           (Demo.with_materials [(0, "0: a"); (1, "1: b"); (2, "2: c")] 2 Demo.world0)).
  - reflexivity.
  - vm_compute. split; discriminate.
  - vm_compute. split; discriminate.
Defined.

Lemma onKeyEvent_marks_changed_when_index_moves_witness :
  let w := Demo.with_materials [(0, "0: a"); (1, "1: b")] 0 Demo.world0 in
  let r := onKeyEvent
             (mkKeyboardEvent KeyPressed Key_Left) w in
  result_of r = Returned true /\
  mOptionsChanged (viewer_of r) =
    mOptionsChanged (this w) || negb (materialID (mParams (viewer_of r)) =? 0) /\
  (2 <= 2 <= 2 ^ 32 -> 0 <= 0 <= 2 - 1 ->
   materialID (mParams (viewer_of r)) <> 0 /\ mOptionsChanged (viewer_of r) = true).
Proof.
  apply (onKeyEvent_marks_changed_when_index_moves
           (mkKeyboardEvent KeyPressed Key_Left)
           (Demo.with_materials [(0, "0: a"); (1, "1: b")] 0 Demo.world0)).
  - reflexivity.
  - left. reflexivity.
Defined.

(** C4 as stated fails when the index cannot move: with a single material
    (index 0) and the flag down, the Right arrow leaves the flag down. *)
Lemma onKeyEvent_single_material_keeps_flag :
  let w := Demo.with_materials [(0, "0: a")] 0 Demo.world0 in
  let r := onKeyEvent
             (mkKeyboardEvent KeyPressed Key_Right) w in
  mOptionsChanged (this w) = false /\
  ~ mOptionsChanged (viewer_of r) = true.
Proof.
  vm_compute. split; [reflexivity | discriminate].
Qed.

(** * onMouseEvent *)

Section MouseEvents.

Context (H : Host).

Lemma int32_small z : - 2 ^ 31 <= z < 2 ^ 31 -> int32 z = z.
Proof. intros Hz. unfold int32. rewrite Z.mod_small; lia. Qed.

Lemma glm_clamp_max_min x lo hi :
  lo <= hi -> glm_clamp x lo hi = Z.max lo (Z.min x hi).
Proof.
  intros Hle. unfold glm_clamp, std_min, std_max.
  destruct (x <? lo) eqn:E1; [apply Z.ltb_lt in E1 | apply Z.ltb_ge in E1];
    match goal with |- context [?a <? ?b] => destruct (a <? b) eqn:E2 end;
    [apply Z.ltb_lt in E2 | apply Z.ltb_ge in E2 | apply Z.ltb_lt in E2
    | apply Z.ltb_ge in E2]; lia.
Qed.

Lemma onMouseEvent_other ev w :
  mouse_type ev <> LeftButtonDown -> onMouseEvent H ev w = (Returned false, w).
Proof.
  intros Hne. unfold onMouseEvent. by decide_tests.
Qed.

Lemma onMouseEvent_left pos w :
  let dim := frameDim (mParams (this w)) in
  let p := cursor_pixel H pos dim in
  onMouseEvent H (mkMouseEvent LeftButtonDown pos) w =
    (Returned false,
     mkWorld
       (set_mParams
          (set_selectedPixel
             (glm_clamp p.1 0 (int32 (int32 dim.1 - 1)),
              glm_clamp p.2 0 (int32 (int32 dim.2 - 1)))
             (mParams (this w)))
          (this w))
       (warnings w) (dictionary w)).
Proof. reflexivity. Qed.

(** C3 (as amended): when both frame dimensions are at least 1 and fit a
    signed 32-bit integer, a left-button-down event sets the selected pixel
    to the integer pixel coordinate under the cursor clamped componentwise
    into [0, frameDim.x-1] x [0, frameDim.y-1]; an event of any other type
    changes nothing.  The callback always returns [false]. *)
Theorem onMouseEvent_selects_clamped_pixel ev w :
  let dim := frameDim (mParams (this w)) in
  1 <= dim.1 <= 2 ^ 31 - 1 ->
  1 <= dim.2 <= 2 ^ 31 - 1 ->
  let r := onMouseEvent H ev w in
  let p := cursor_pixel H (mouse_pos ev) dim in
  let sel := selectedPixel (mParams (viewer_of r)) in
  result_of r = Returned false /\
  (mouse_type ev = LeftButtonDown ->
   sel = (Z.max 0 (Z.min p.1 (dim.1 - 1)), Z.max 0 (Z.min p.2 (dim.2 - 1))) /\
   0 <= sel.1 <= dim.1 - 1 /\ 0 <= sel.2 <= dim.2 - 1) /\
  (mouse_type ev <> LeftButtonDown -> world_of r = w).
Proof.
  intros dim Hx Hy. destruct ev as [t pos]. cbn.
  split; [|split].
  - destruct (decide (t = LeftButtonDown)) as [-> | Hne];
      [reflexivity | by rewrite onMouseEvent_other].
  - intros ->. rewrite onMouseEvent_left. cbn. fold dim.
    rewrite !(int32_small (dim.1)), !(int32_small (dim.2)) by lia.
    rewrite !(int32_small (dim.1 - 1)), !(int32_small (dim.2 - 1)) by lia.
    rewrite !glm_clamp_max_min by lia.
    split; [reflexivity | cbn; lia].
  - intros Hne. by rewrite onMouseEvent_other.
Qed.

End MouseEvents.

Lemma onMouseEvent_selects_clamped_pixel_witness :
  let w := Demo.with_frameDim (640, 480) Demo.world0 in
  let r := onMouseEvent (Demo.host Demo.no_probe true)
             (mkMouseEvent LeftButtonDown (0, 0)) w in
  result_of r = Returned false /\
  (LeftButtonDown = LeftButtonDown ->
   selectedPixel (mParams (viewer_of r)) = (0, 0) /\
   0 <= (selectedPixel (mParams (viewer_of r))).1 <= 640 - 1 /\
   0 <= (selectedPixel (mParams (viewer_of r))).2 <= 480 - 1) /\
  (LeftButtonDown <> LeftButtonDown -> world_of r = w).
Proof.
  apply (onMouseEvent_selects_clamped_pixel (Demo.host Demo.no_probe true)
           (mkMouseEvent LeftButtonDown (0, 0))
           (Demo.with_frameDim (640, 480) Demo.world0)).
  - vm_compute. split; discriminate.
  - vm_compute. split; discriminate.
Defined.

(** C3 as stated (dimensions at least 1, nothing more) fails for a dimension
    above [2^31 - 1]: [(glm::ivec2)frameDim] is then negative, the upper
    clamp bound lies below 0 and the selected pixel leaves the frame. *)
Lemma onMouseEvent_huge_frame_escapes :
  let w := Demo.with_frameDim (4294967295, 1) Demo.world0 in
  let r := onMouseEvent (Demo.host Demo.no_probe true)
             (mkMouseEvent LeftButtonDown (0, 0)) w in
  let dim := frameDim (mParams (this w)) in
  let sel := selectedPixel (mParams (viewer_of r)) in
  1 <= dim.1 /\ 1 <= dim.2 /\ sel = (-2, 0) /\
  ~ (0 <= sel.1 <= dim.1 - 1 /\ 0 <= sel.2 <= dim.2 - 1).
Proof.
  vm_compute. repeat split; try discriminate.
  intros [[Hneg _] _]. apply Hneg. reflexivity.
Qed.

(** * compile *)

Section Compile.

Context (H : Host).

Lemma std_min_spec a b : std_min a b = Z.min a b.
Proof.
  unfold std_min. destruct (b <? a) eqn:E;
    [apply Z.ltb_lt in E | apply Z.ltb_ge in E]; lia.
Qed.

Lemma compile_run dims w :
  let extent := std_min dims.1 dims.2 in
  let scale := f_div H (f_lit H "1.f") (f_of_uint H extent) in
  compile H dims w =
    (Returned tt,
     mkWorld
       (set_mParams
          (set_viewportScale (scale, scale)
             (set_viewportOffset
                (f_of_uint H (uint32 (dims.1 - extent) `div` 2),
                 f_of_uint H (uint32 (dims.2 - extent) `div` 2))
                (set_frameDim dims (mParams (this w)))))
          (this w))
       (warnings w) (dictionary w)).
Proof. reflexivity. Qed.

(** C9: for frame dimensions [w >= 1] and [h >= 1], [compile] places a
    square viewport of side [extent = min(w, h)] centred in the frame: the
    offset is [((w - extent)/2, (h - extent)/2)] by integer division
    (converted to float), the scale is [1.f / extent] in both components,
    and the viewport rectangle lies inside the frame, with margins on
    opposite sides differing by at most one pixel. *)
Theorem compile_centres_square_viewport wd ht w :
  is_uint32 wd -> is_uint32 ht -> 1 <= wd -> 1 <= ht ->
  let r := compile H (wd, ht) w in
  let p := mParams (viewer_of r) in
  let extent := Z.min wd ht in
  let xOffset := (wd - extent) `div` 2 in
  let yOffset := (ht - extent) `div` 2 in
  result_of r = Returned tt /\
  frameDim p = (wd, ht) /\
  viewportOffset p = (f_of_uint H xOffset, f_of_uint H yOffset) /\
  viewportScale p = (f_div H (f_lit H "1.f") (f_of_uint H extent),
                     f_div H (f_lit H "1.f") (f_of_uint H extent)) /\
  1 <= extent /\
  (0 <= xOffset /\ xOffset + extent <= wd) /\
  (0 <= yOffset /\ yOffset + extent <= ht) /\
  0 <= (wd - (xOffset + extent)) - xOffset <= 1 /\
  0 <= (ht - (yOffset + extent)) - yOffset <= 1.
Proof.
  intros Hw Hh Hw1 Hh1 r p extent xOffset yOffset.
  unfold is_uint32 in Hw, Hh. subst r p. rewrite compile_run. cbn. rewrite std_min_spec. fold extent.
  assert (He : 1 <= extent <= wd /\ extent <= ht) by (subst extent; lia).
  unfold uint32. rewrite !Z.mod_small by lia. fold xOffset yOffset.
  assert (Hx : 2 * xOffset <= wd - extent < 2 * xOffset + 2).
  { subst xOffset.
    pose proof (Z.mul_div_le (wd - extent) 2).
    pose proof (Z.mul_succ_div_gt (wd - extent) 2). lia. }
  assert (Hy : 2 * yOffset <= ht - extent < 2 * yOffset + 2).
  { subst yOffset.
    pose proof (Z.mul_div_le (ht - extent) 2).
    pose proof (Z.mul_succ_div_gt (ht - extent) 2). lia. }
  assert (0 <= xOffset) by (apply Z.div_pos; lia).
  assert (0 <= yOffset) by (apply Z.div_pos; lia).
  repeat split; try reflexivity; lia.
Qed.

End Compile.

Lemma compile_centres_square_viewport_witness :
  let r := compile (Demo.host Demo.no_probe true) (640, 480) Demo.world0 in
  let p := mParams (viewer_of r) in
  result_of r = Returned tt /\
  frameDim p = (640, 480) /\
  viewportOffset p = (80, 0) /\
  viewportScale p = (0, 0) /\
  1 <= 480 /\
  (0 <= 80 /\ 80 + 480 <= 640) /\
  (0 <= 0 /\ 0 + 480 <= 480) /\
  0 <= (640 - (80 + 480)) - 80 <= 1 /\
  0 <= (480 - (0 + 480)) - 0 <= 1.
Proof.
  apply (compile_centres_square_viewport (Demo.host Demo.no_probe true)
           640 480 Demo.world0);
    unfold is_uint32; lia.
Defined.

(** * create and init *)

Section Create.

Context (H : Host).

Lemma create_run :
  create H =
    Returned
      match ComputePass_create H kFileViewerPass "main" "6_0" viewer_defines with
      | None => None
      | Some pass =>
          match SampleGenerator_create H (SAMPLE_GENERATOR_UNIFORM H) with
          | None => None
          | Some generator =>
              match StructuredBuffer_create H pass "gPixelData" 1 with
              | None => None
              | Some buffer => Some (initialized_with H pass generator buffer)
              end
          end
      end.
Proof.
  unfold create, init. fold viewer_defines. unfold_M. cbn.
  destruct (ComputePass_create _ _ _ _ _) as [pass|]; cbn; [|reflexivity].
  destruct (SampleGenerator_create _ _) as [generator|]; cbn; [|reflexivity].
  destruct (StructuredBuffer_create _ _ _ _) as [buffer|]; reflexivity.
Qed.

(** C7: [create] returns a pass object exactly when the compute kernel,
    the sample generator and the readback buffer are all constructed, and
    that object is fully initialized; in every other case it returns null.
    It never returns anything else. *)
Theorem create_all_or_nothing :
  (forall pPass,
     create H = Returned (Some pPass) <->
     exists pass generator buffer,
       constructed H pass generator buffer /\
       pPass = initialized_with H pass generator buffer) /\
  (forall pPass, create H = Returned (Some pPass) -> fully_initialized pPass) /\
  ((~ exists pass generator buffer, constructed H pass generator buffer) <->
   create H = Returned None).
Proof.
  rewrite create_run. unfold constructed.
  destruct (ComputePass_create _ _ _ _ _) as [pass|] eqn:E1.
  2: { split; [|split]; [split | | split]; try done.
       - intros (? & ? & ? & (? & _) & _); done.
       - intros _ (? & ? & ? & ? & _); done. }
  destruct (SampleGenerator_create _ _) as [generator|] eqn:E2.
  2: { split; [|split]; [split | | split]; try done.
       - intros (? & ? & ? & (_ & ? & _) & _); done.
       - intros _ (? & ? & ? & _ & ? & _); done. }
  destruct (StructuredBuffer_create _ pass _ _) as [buffer|] eqn:E3.
  2: { split; [|split]; [split | | split]; try done.
       - intros (p & ? & ? & (Hp & _ & Hb) & _).
         injection Hp as <-. rewrite E3 in Hb. done.
       - intros _ (p & ? & ? & Hp & _ & Hb).
         injection Hp as <-. rewrite E3 in Hb. done. }
  split; [|split].
  - intros pPass. split.
    + intros [= <-]. exists pass, generator, buffer. done.
    + intros (p & g & b & (Hp & Hg & Hb) & ->).
      injection Hp as <-. injection Hg as <-. rewrite E3 in Hb.
      injection Hb as <-. reflexivity.
  - intros pPass [= <-]. unfold fully_initialized, initialized_with. cbn.
    repeat split; eauto.
  - split; [|done]. intros Hno. exfalso. apply Hno.
    exists pass, generator, buffer. done.
Qed.

End Create.

(** * setScene *)

Section SetScene.

Context (H : Host).

Lemma push_materials_from scene (ids : list Z) w :
  foldr (fun i (rest : M unit) =>
           modify (fun s => set_mMaterialList
                              (mMaterialList s ++ [material_entry scene i]) s);;
           rest)
        (mret tt) ids w =
    (Returned tt,
     mkWorld
       (set_mMaterialList
          (mMaterialList (this w) ++ (material_entry scene <$> ids)) (this w))
       (warnings w) (dictionary w)).
Proof.
  revert w. induction ids as [|i ids IH]; intros w.
  - cbn. unfold_M. rewrite app_nil_r. by destruct w as [[]].
  - cbn [foldr]. unfold mbind at 1. unfold M_bind at 1.
    unfold modify at 1. rewrite IH. cbn.
    by rewrite <- app_assoc.
Qed.

Lemma push_materials_run scene w :
  push_materials scene w =
    (Returned tt,
     mkWorld
       (set_mMaterialList (mMaterialList (this w) ++ material_list scene) (this w))
       (warnings w) (dictionary w)).
Proof. apply push_materials_from. Qed.

Lemma setScene_null w :
  setScene H None w =
    (Returned tt,
     mkWorld
       (set_mParams
          (set_useEnvMap false
             (set_useSceneMaterial false (set_materialID 0 (mParams (this w)))))
          (set_mMaterialList []
             (set_mEnvProbeFilename EmptyString
                (set_mpEnvProbe None (set_mpScene None (this w))))))
       (warnings w) (dictionary w)).
Proof. reflexivity. Qed.

Lemma setScene_scene scene pass w :
  mpViewerPass (this w) = Some pass ->
  light_probe_binds H scene pass ->
  let r := setScene H (Some scene) w in
  mMaterialList (viewer_of r) = material_list scene /\
  mpScene (viewer_of r) = Some scene /\
  result_of r =
    (if asserts_enabled H && negb (0 <? Z.of_nat (length (material_list scene)))
     then Failed Assertion else Returned tt).
Proof.
  intros Hpass Hbinds. unfold setScene, loadEnvMap. unfold_M. cbn.
  rewrite Hpass.
  destruct (getLightProbe scene) as [fn|] eqn:Efn.
  - destruct (EnvProbe_create H fn) as [probe|] eqn:Eprobe; cbn; rewrite ?Hpass; cbn.
    + rewrite (Hbinds fn probe Efn Eprobe). cbn. decide_tests. cbn.
      rewrite push_materials_run. cbn. unfold assert, fail.
      destruct (asserts_enabled H && _); done.
    + decide_tests. cbn.
      rewrite push_materials_run. cbn. unfold assert, fail.
      destruct (asserts_enabled H && _); done.
  - cbn. decide_tests. cbn.
    rewrite push_materials_run. cbn. unfold assert, fail.
    destruct (asserts_enabled H && _); done.
Qed.

Lemma material_list_length scene :
  Z.of_nat (length (material_list scene)) = uint32 (getMaterialCount scene).
Proof.
  unfold material_list. rewrite length_fmap, length_seqZ.
  apply Z2Nat.id. unfold uint32. apply Z.mod_pos_bound. lia.
Qed.

Lemma material_list_lookup scene (i : nat) :
  Z.of_nat i < uint32 (getMaterialCount scene) ->
  material_list scene !! i = Some (material_entry scene (Z.of_nat i)).
Proof.
  intros Hi. unfold material_list. rewrite list_lookup_fmap.
  rewrite (lookup_seqZ_lt 0) by lia. cbn. by rewrite Z.add_0_l.
Qed.

(** The list [setScene] builds always fits the 32-bit material index. *)
Lemma material_list_fits_index scene :
  Z.of_nat (length (material_list scene)) < 2 ^ 32.
Proof.
  rewrite material_list_length. unfold uint32. apply Z.mod_pos_bound. lia.
Qed.

(** A call with a scene that returns has built the whole list. *)
Lemma setScene_returned_list scene w :
  let r := setScene H (Some scene) w in
  result_of r = Returned tt ->
  mMaterialList (viewer_of r) = material_list scene.
Proof.
  intros r Hdone.
  destruct (mpViewerPass (this w)) as [pass|] eqn:Epass.
  - destruct (getLightProbe scene) as [fn|] eqn:Efn;
      [destruct (EnvProbe_create H fn) as [probe|] eqn:Eprobe;
       [destruct (EnvProbe_setIntoConstantBuffer H probe pass "gEnvProbe") eqn:Ebind|]|].
    2: { exfalso. revert Hdone. subst r. unfold setScene, loadEnvMap. unfold_M. cbn.
         rewrite Epass, Efn, Eprobe. cbn. rewrite Epass. cbn. by rewrite Ebind. }
    all: apply (setScene_scene scene pass w Epass).
    all: intros fn' probe' Hfn' Hprobe'; congruence.
  - exfalso. revert Hdone. subst r. unfold setScene, loadEnvMap. unfold_M. cbn.
    by rewrite Epass.
Qed.

(** C10 (as amended): after [setScene] with a null scene the material list
    is empty, the material index is 0, the environment probe and its file
    name are cleared and the use-scene-material and use-environment-map
    options are off.  After every call of [setScene] with a scene that
    returns, the material list holds one entry [(i, "i: name")] per scene
    material, for [i] from 0 in index order.  On an initialized pass that is
    so whenever the environment map of the scene's light probe (if any)
    binds, and the call then returns unless the scene has no material and
    assertions are on; when that map is created but does not bind, the call
    throws and leaves the material list empty. *)
Theorem setScene_rebuilds_material_list w :
  (let r := setScene H None w in
   let s := viewer_of r in
   result_of r = Returned tt /\
   mMaterialList s = [] /\
   materialID (mParams s) = 0 /\
   mpEnvProbe s = None /\
   mEnvProbeFilename s = EmptyString /\
   useSceneMaterial (mParams s) = false /\
   useEnvMap (mParams s) = false) /\
  (forall scene pass,
     mpViewerPass (this w) = Some pass ->
     light_probe_binds H scene pass ->
     let r := setScene H (Some scene) w in
     let n := uint32 (getMaterialCount scene) in
     let l := mMaterialList (viewer_of r) in
     l = material_entry scene <$> seqZ 0 n /\
     Z.of_nat (length l) = n /\
     (forall i : nat, Z.of_nat i < n ->
        l !! i = Some (Z.of_nat i,
                       pretty (Z.of_nat i) +:+ ": " +:+
                       getMaterialName scene (Z.of_nat i))) /\
     (0 < n \/ asserts_enabled H = false -> result_of r = Returned tt)) /\
  (forall scene pass fn probe,
     mpViewerPass (this w) = Some pass ->
     getLightProbe scene = Some fn ->
     EnvProbe_create H fn = Some probe ->
     EnvProbe_setIntoConstantBuffer H probe pass "gEnvProbe" = false ->
     let r := setScene H (Some scene) w in
     result_of r = Failed (Exception "Failed to bind EnvProbe to program") /\
     mMaterialList (viewer_of r) = []) /\
  (forall scene,
     let r := setScene H (Some scene) w in
     let n := uint32 (getMaterialCount scene) in
     let l := mMaterialList (viewer_of r) in
     result_of r = Returned tt ->
     l = material_entry scene <$> seqZ 0 n /\
     Z.of_nat (length l) = n /\
     (forall i : nat, Z.of_nat i < n ->
        l !! i = Some (Z.of_nat i,
                       pretty (Z.of_nat i) +:+ ": " +:+
                       getMaterialName scene (Z.of_nat i)))).
Proof.
  split; [|split; [|split]]; cycle 3.
  { intros scene r n l Hdone.
    pose proof (setScene_returned_list scene w Hdone) as Hl.
    fold r in Hl. subst l. rewrite Hl.
    split; [reflexivity|]. split; [apply material_list_length|].
    intros i Hi. by apply material_list_lookup. }
  - rewrite setScene_null. cbn. done.
  - intros scene pass Hpass Hbinds r n l.
    destruct (setScene_scene scene pass w Hpass Hbinds) as (Hl & _ & Hres).
    fold r in Hl, Hres. subst l. rewrite Hl.
    split; [reflexivity|]. split; [apply material_list_length|].
    split; [intros i Hi; by apply material_list_lookup|].
    intros Hok. rewrite Hres, material_list_length. fold n.
    destruct Hok as [Hn | ->]; [|reflexivity].
    apply Z.ltb_lt in Hn. rewrite Hn. by rewrite andb_false_r.
  - intros scene pass fn probe Hpass Hfn Hprobe Hbind.
    unfold setScene, loadEnvMap. unfold_M. cbn.
    rewrite Hpass, Hfn, Hprobe. cbn. rewrite Hpass. cbn. rewrite Hbind. cbn. done.
Qed.

End SetScene.

Lemma create_all_or_nothing_witness :
  create (Demo.host Demo.no_probe true) = Returned (Some Demo.viewer0) /\
  fully_initialized Demo.viewer0.
Proof.
  destruct (create_all_or_nothing (Demo.host Demo.no_probe true))
    as (Hiff & Hfull & _).
  assert (Hcreate : create (Demo.host Demo.no_probe true) = Returned (Some Demo.viewer0)).
  { apply Hiff.
    exists (mkComputePass kFileViewerPass), (mkSampleGenerator 0),
           (mkStructuredBuffer "gPixelData").
    repeat split; reflexivity. }
  split; [exact Hcreate | exact (Hfull _ Hcreate)].
Defined.

Lemma setScene_rebuilds_material_list_witness :
  let scene := mkScene 2 (fun i => if i =? 0 then "gold" else "glass") (Some "sky.hdr") in
  let r := setScene (Demo.host Demo.any_probe true) (Some scene) Demo.world0 in
  mMaterialList (viewer_of r) = [(0, "0: gold"); (1, "1: glass")] /\
  result_of r = Returned tt.
Proof.
  intros scene r.
  destruct (setScene_rebuilds_material_list (Demo.host Demo.any_probe true) Demo.world0)
    as (_ & Hscene & _).
  destruct (Hscene scene (mkComputePass kFileViewerPass) eq_refl
              ltac:(intros ? ? _ _; reflexivity))
    as (Hl & _ & _ & Hres).
  split; [exact Hl | apply Hres; left; reflexivity].
Defined.

(** C10 as stated fails for a call that throws: with a scene of two
    materials whose light-probe map is created but cannot be bound,
    [setScene] ends in the exception with an empty material list. *)
Lemma setScene_throw_leaves_no_entries :
  let r := setScene DemoMore.host_nobind (Some DemoMore.two_materials) Demo.world0 in
  result_of r = Failed (Exception "Failed to bind EnvProbe to program") /\
  ~ mMaterialList (viewer_of r) =
      material_entry DemoMore.two_materials <$>
        seqZ 0 (uint32 (getMaterialCount DemoMore.two_materials)).
Proof.
  vm_compute. split; [reflexivity | discriminate].
Qed.

(** * execute *)

Section Execute.

Context (H : Host).

Lemma refreshed_flags_bits d i :
  0 <= i < 32 ->
  Z.testbit (refreshed_flags H d) i =
    Z.testbit (default 0 (d !! kRenderPassRefreshFlags H)) i ||
    Z.testbit (RenderOptionsChanged H) i.
Proof.
  intros Hi. unfold refreshed_flags, uint32.
  rewrite Z.mod_pow2_bits_low by lia. apply Z.lor_spec.
Qed.

(** The first block of [execute], whatever happens afterwards. *)
Lemma execute_refresh w :
  let r := execute H w in
  mOptionsChanged (viewer_of r) = false /\
  dictionary (world_of r) =
    if mOptionsChanged (this w)
    then <[kRenderPassRefreshFlags H := refreshed_flags H (dictionary w)]> (dictionary w)
    else dictionary w.
Proof.
  unfold execute, refreshed_flags. unfold_M. cbn.
  destruct (mOptionsChanged (this w)) eqn:Echanged; cbn;
    destruct (mpSampleGenerator (this w)) as [generator|]; cbn; try done;
    destruct (mpViewerPass (this w)) as [pass|]; cbn; try done;
    destruct (SampleGenerator_setIntoProgramVars H generator pass); cbn; try done;
    destruct (readback (mParams (this w))); cbn; try done;
    destruct (mPixelDataBuffer (this w)); cbn; done.
Qed.

(** C6: when the options-changed flag is set, [execute] stores in the
    dictionary, under the refresh-flags key, the previous entry (0 when
    absent) OR-ed with [RenderOptionsChanged], so that every previous bit
    is kept, touches no other entry, and resets the flag; when the flag is
    not set, the dictionary is not modified. *)
Theorem execute_signals_options_changed w :
  let r := execute H w in
  let key := kRenderPassRefreshFlags H in
  let prev := default 0 (dictionary w !! key) in
  (mOptionsChanged (this w) = true ->
   exists flags,
     dictionary (world_of r) !! key = Some flags /\
     flags = uint32 (Z.lor prev (RenderOptionsChanged H)) /\
     (forall i, 0 <= i < 32 ->
        Z.testbit flags i = Z.testbit prev i || Z.testbit (RenderOptionsChanged H) i) /\
     (forall other, other <> key ->
        dictionary (world_of r) !! other = dictionary w !! other) /\
     mOptionsChanged (viewer_of r) = false) /\
  (mOptionsChanged (this w) = false ->
   dictionary (world_of r) = dictionary w /\
   mOptionsChanged (viewer_of r) = false).
Proof.
  intros r key prev. destruct (execute_refresh w) as [Hflag Hdict].
  fold r in Hflag, Hdict. split; intros Echanged; rewrite Echanged in Hdict.
  - exists (refreshed_flags H (dictionary w)). rewrite Hdict.
    split; [apply lookup_insert_eq|]. split; [reflexivity|].
    split; [intros i Hi; by apply refreshed_flags_bits|].
    split; [|exact Hflag].
    intros other Hne. by apply lookup_insert_ne.
  - done.
Qed.

Lemma execute_run generator pass buffer w :
  mpSampleGenerator (this w) = Some generator ->
  mpViewerPass (this w) = Some pass ->
  mPixelDataBuffer (this w) = Some buffer ->
  let r := execute H w in
  let gPixelData := dispatch H (uploaded_params H (mParams (this w))) in
  if SampleGenerator_setIntoProgramVars H generator pass then
    result_of r = Returned tt /\
    mPixelDataValid (viewer_of r) = readback (mParams (this w)) /\
    mPixelData (viewer_of r) =
      (if readback (mParams (this w)) then gPixelData else mPixelData (this w)) /\
    texCoords (mParams (viewer_of r)) =
      (if readback (mParams (this w)) then texC gPixelData
       else texCoords (mParams (this w))) /\
    frameCount (mParams (viewer_of r)) = uint32 (frameCount (mParams (this w)) + 1)
  else
    result_of r = Failed (Exception "Failed to bind sample generator") /\
    mPixelDataValid (viewer_of r) = mPixelDataValid (this w) /\
    mPixelData (viewer_of r) = mPixelData (this w).
Proof.
  intros Hgen Hpass Hbuf. unfold execute, uploaded_params. unfold_M. cbn.
  destruct (mOptionsChanged (this w)); cbn; rewrite Hgen; cbn; rewrite Hpass; cbn;
    destruct (SampleGenerator_setIntoProgramVars H generator pass); cbn; try done;
    destruct (readback (mParams (this w))); cbn; rewrite ?Hbuf; cbn; done.
Qed.

(** C5 (as amended): after every call to [execute] that returns, the
    validity flag equals the readback option: when readback was enabled the
    pixel-data record is the one the kernel wrote to the readback buffer
    (and the texture coordinates are copied from it), when it was disabled
    the flag is false and the record is untouched.  On an initialized pass
    the call returns exactly when the sample generator binds; when it does
    not bind, the call throws before the dispatch, no readback occurs and
    the flag and the record keep their previous values. *)
Theorem execute_validity_matches_readback w :
  let r := execute H w in
  (result_of r = Returned tt ->
   mPixelDataValid (viewer_of r) = readback (mParams (this w)) /\
   (readback (mParams (this w)) = true ->
    mPixelDataValid (viewer_of r) = true /\
    mPixelData (viewer_of r) = dispatch H (uploaded_params H (mParams (this w))) /\
    texCoords (mParams (viewer_of r)) = texC (mPixelData (viewer_of r))) /\
   (readback (mParams (this w)) = false ->
    mPixelDataValid (viewer_of r) = false /\
    mPixelData (viewer_of r) = mPixelData (this w))) /\
  (forall generator pass buffer,
     mpSampleGenerator (this w) = Some generator ->
     mpViewerPass (this w) = Some pass ->
     mPixelDataBuffer (this w) = Some buffer ->
     (result_of r = Returned tt <->
      SampleGenerator_setIntoProgramVars H generator pass = true) /\
     (SampleGenerator_setIntoProgramVars H generator pass = false ->
      result_of r = Failed (Exception "Failed to bind sample generator") /\
      mPixelDataValid (viewer_of r) = mPixelDataValid (this w) /\
      mPixelData (viewer_of r) = mPixelData (this w))).
Proof.
  intros r. subst r. split.
  - unfold execute, uploaded_params. unfold_M. cbn.
    destruct (mOptionsChanged (this w)); cbn;
      destruct (mpSampleGenerator (this w)) as [generator|]; cbn; try done;
      destruct (mpViewerPass (this w)) as [pass|]; cbn; try done;
      destruct (SampleGenerator_setIntoProgramVars H generator pass); cbn; try done;
      destruct (readback (mParams (this w))); cbn; try done;
      destruct (mPixelDataBuffer (this w)); cbn; done.
  - intros generator pass buffer Hgen Hpass Hbuf.
    pose proof (execute_run generator pass buffer w Hgen Hpass Hbuf) as Hrun.
    cbn zeta in Hrun.
    destruct (SampleGenerator_setIntoProgramVars H generator pass).
    + destruct Hrun as (Hres & _). by rewrite Hres.
    + destruct Hrun as (Hres & Hvalid & Hdata). rewrite Hres. by repeat split.
Qed.

End Execute.

Lemma execute_signals_options_changed_witness :
  let w := mkWorld (set_mOptionsChanged true Demo.viewer0) [] {[ "_refreshFlags" := 4 ]} in
  let r := execute (Demo.host Demo.no_probe true) w in
  dictionary (world_of r) !! "_refreshFlags" = Some 5 /\
  mOptionsChanged (viewer_of r) = false.
Proof.
  intros w r.
  destruct (execute_signals_options_changed (Demo.host Demo.no_probe true) w)
    as [Hset _].
  destruct (Hset eq_refl) as (flags & Hlookup & -> & _ & _ & Hflag).
  split; [exact Hlookup | exact Hflag].
Defined.

Lemma execute_validity_matches_readback_witness :
  let w := mkWorld (set_mParams (set_readback true Demo.params0) Demo.viewer0) [] ∅ in
  let r := execute (Demo.host Demo.no_probe true) w in
  result_of r = Returned tt /\ mPixelDataValid (viewer_of r) = true.
Proof.
  intros w r.
  destruct (execute_validity_matches_readback (Demo.host Demo.no_probe true) w)
    as [Hreturned Hinit].
  destruct (Hinit (mkSampleGenerator 0) (mkComputePass kFileViewerPass)
              (mkStructuredBuffer "gPixelData") eq_refl eq_refl eq_refl)
    as [Hiff _].
  assert (Hres : result_of r = Returned tt) by (apply Hiff; reflexivity).
  destruct (Hreturned Hres) as (Hvalid & _).
  split; [exact Hres | exact Hvalid].
Defined.

(** C5 as stated fails for a call that throws: when the sample generator
    cannot be bound, [execute] leaves the validity flag of the previous frame
    in place, here [true] although readback is disabled and no readback
    occurred. *)
Lemma execute_throw_keeps_stale_validity :
  let r := execute DemoMore.host_nobind DemoMore.stale_valid_world in
  readback (mParams (this DemoMore.stale_valid_world)) = false /\
  result_of r = Failed (Exception "Failed to bind sample generator") /\
  ~ mPixelDataValid (viewer_of r) = readback (mParams (this DemoMore.stale_valid_world)).
Proof.
  vm_compute. split; [reflexivity|]. split; [reflexivity | discriminate].
Qed.

(** * renderUI *)

Section Ensures.

Context {A B : Type}.

Lemma ensures_ret (a : A) w Q : Q a w -> ensures (mret a) w Q.
Proof. done. Qed.

Lemma ensures_bind (m : M A) (k : A -> M B) w Q :
  ensures m w (fun a w' => ensures (k a) w' Q) -> ensures (m ≫= k) w Q.
Proof.
  unfold ensures, mbind, M_bind. destruct (m w) as [[a|f] w']; done.
Qed.

Lemma ensures_mono (m : M A) w (P Q : A -> World -> Prop) :
  ensures m w P -> (forall a w', P a w' -> Q a w') -> ensures m w Q.
Proof.
  unfold ensures. destruct (m w) as [[a|f] w']; [|done]. intros HP HPQ.
  by apply HPQ.
Qed.

Lemma ensures_completed (m : M A) w Q a :
  ensures m w Q -> result_of (m w) = Returned a -> Q a (world_of (m w)).
Proof.
  unfold ensures, result_of, world_of. destruct (m w) as [[a'|f] w']; cbn; [|done].
  by intros HQ [= ->].
Qed.

End Ensures.

Section EnsuresPrimitives.

Context (H : Host).

Lemma ensures_get w Q : Q (this w) w -> ensures get w Q.
Proof. done. Qed.

Lemma ensures_modify f w Q :
  Q tt (with_viewer (f (this w)) w) -> ensures (modify f) w Q.
Proof. done. Qed.

Lemma ensures_modify_params f w Q :
  Q tt (with_viewer (set_mParams (f (mParams (this w))) (this w)) w) ->
  ensures (modify_params f) w Q.
Proof. done. Qed.

Lemma ensures_on_params {A} (wdg : A -> bool * A) field set w Q :
  (let r := wdg (field (mParams (this w))) in
   Q r.1 (with_viewer (set_mParams (set r.2 (mParams (this w))) (this w)) w)) ->
  ensures (on_params wdg field set) w Q.
Proof. done. Qed.

Lemma ensures_on_pixel {A} (wdg : A -> bool * A) field set w Q :
  (let r := wdg (field (mPixelData (this w))) in
   Q r.1 (with_viewer (set_mPixelData (set r.2 (mPixelData (this w))) (this w)) w)) ->
  ensures (on_pixel wdg field set) w Q.
Proof. done. Qed.

Lemma ensures_assert cond w Q : Q tt w -> ensures (assert H cond) w Q.
Proof.
  unfold ensures, assert. by destruct (asserts_enabled H && negb cond).
Qed.

(** [loadEnvMap] never touches the parameters, and when it returns, it
    returns whether the probe could be created. *)
Lemma ensures_loadEnvMap filename w :
  ensures (loadEnvMap H filename) w (fun loaded w' =>
    mParams (this w') = mParams (this w) /\
    loaded = bool_decide (is_Some (EnvProbe_create H filename))).
Proof.
  unfold ensures, loadEnvMap.
  destruct (EnvProbe_create H filename) as [probe|]; [|done].
  unfold_M. cbn. destruct (mpViewerPass (this w)) as [pass|]; cbn; [|done].
  destruct (EnvProbe_setIntoConstantBuffer H probe pass "gEnvProbe"); cbn; done.
Qed.

End EnsuresPrimitives.

(** Normal form of a world built by field updates. *)
Ltac simpl_world :=
  cbn [
       this warnings dictionary with_viewer fst snd frameDim frameCount
       sliceViewer viewportOffset viewportScale materialID
       useSceneMaterial useNormalMapping useFixedTexCoords texCoords
       baseColor linearRoughness metallic originalDisney enableDiffuse
       enableSpecular useBrdfSampling usePdf applyNdotL lightIntensity
       lightColor useGroundPlane useDirectionalLight lightDir useEnvMap
       orthographicCamera cameraDistance cameraFovY cameraViewportScale
       readback selectedPixel texC pd_baseColor pd_diffuse pd_specular
       pd_linearRoughness pd_metallic pd_T pd_B pd_N pd_wo pd_wi
       pd_output mpScene mpEnvProbe mEnvProbeFilename mMaterialList
       mParams mPixelData mPixelDataValid mOptionsChanged mpViewerPass
       mpSampleGenerator mPixelDataBuffer set_frameDim set_frameCount
       set_sliceViewer set_viewportOffset set_viewportScale
       set_materialID set_useSceneMaterial set_useNormalMapping
       set_useFixedTexCoords set_texCoords set_baseColor
       set_linearRoughness set_metallic set_originalDisney
       set_enableDiffuse set_enableSpecular set_useBrdfSampling
       set_usePdf set_applyNdotL set_lightIntensity set_lightColor
       set_useGroundPlane set_useDirectionalLight set_lightDir
       set_useEnvMap set_orthographicCamera set_cameraDistance
       set_cameraFovY set_cameraViewportScale set_readback
       set_selectedPixel set_texC set_pd_baseColor set_pd_diffuse
       set_pd_specular set_pd_linearRoughness set_pd_metallic set_pd_T
       set_pd_B set_pd_N set_pd_wo set_pd_wi set_pd_output set_mpScene
       set_mpEnvProbe set_mEnvProbeFilename set_mMaterialList
       set_mParams set_mPixelData set_mPixelDataValid
       set_mOptionsChanged set_mpViewerPass set_mpSampleGenerator
       set_mPixelDataBuffer ] in *.

Ltac ensures_step :=
  lazymatch goal with
  | |- ensures (mbind _ _) _ _ => apply ensures_bind
  | |- ensures (mret _) _ _ => apply ensures_ret
  | |- ensures get _ _ => apply ensures_get
  | |- ensures (modify_params _) _ _ => apply ensures_modify_params
  | |- ensures (modify _) _ _ => apply ensures_modify
  | |- ensures (on_params _ _ _) _ _ => apply ensures_on_params; cbv zeta
  | |- ensures (on_pixel _ _ _) _ _ => apply ensures_on_pixel; cbv zeta
  | |- ensures (assert _ _) _ _ => apply ensures_assert
  | |- ensures (when ?b _) _ _ => unfold when at 1
  | |- ensures (if ?b then _ else _) _ _ => destruct b eqn:?
  | |- ensures (match ?o with Some _ => _ | None => _ end) _ _ => destruct o eqn:?
  end; cbv beta; simpl_world.

(** Use the equations collected along a path. *)
Ltac use_equations :=
  repeat (match goal with Hq : ?l = _ |- context [?l] => rewrite Hq end;
          simpl_world).

Ltac ensures_run := repeat ensures_step.

Section RenderUI.

Context (H : Host) (widget : Gui).

Lemma material_keeps_light_state dirty w :
  ensures (renderUI_material H widget dirty) w (keeps_light_state dirty w).
Proof.
  unfold renderUI_material. ensures_run; (split; [reflexivity | by intros ->]).
Qed.

Lemma bsdf_keeps_light_state dirty w :
  ensures (renderUI_bsdf widget dirty) w (keeps_light_state dirty w).
Proof.
  unfold renderUI_bsdf. ensures_run; (split; [reflexivity | by intros ->]).
Qed.

Lemma camera_keeps_light_state dirty w :
  ensures (renderUI_camera widget dirty) w (keeps_light_state dirty w).
Proof.
  unfold renderUI_camera. ensures_run; (split; [reflexivity | by intros ->]).
Qed.

Lemma pixel_keeps_light_state w :
  ensures (renderUI_pixel widget) w (fun _ w' =>
    light_state (this w') = light_state (this w)).
Proof.
  unfold renderUI_pixel. ensures_run; reflexivity.
Qed.

Lemma light_sets_switches dirty w :
  ensures (renderUI_light H widget dirty) w (fun dirty' w' =>
    light_switches (this w') = light_switches_after H widget (light_state (this w)) /\
    (envmap_loaded H widget = true -> dirty' = true)).
Proof.
  unfold renderUI_light. ensures_run.
  all: try (eapply ensures_mono; [apply ensures_loadEnvMap|];
            intros loaded w' [Hparams ->]; ensures_run).
  all: unfold light_switches, light_switches_after, light_state, envmap_loaded;
    simpl_world; use_equations; cbn.
  all: split; [reflexivity | intros Hloaded; done].
Qed.

Lemma optional_group_keeps (open : bool) (group : M bool) dirty w :
  ensures group w (keeps_light_state dirty w) ->
  ensures (if open then group else mret dirty) w (keeps_light_state dirty w).
Proof. destruct open; [done|]. intros _. by apply ensures_ret. Qed.

Lemma optional_light_group (open : bool) dirty w :
  ensures (if open then renderUI_light H widget dirty else mret dirty) w
    (fun dirty' w' =>
       light_switches (this w') =
         (if open then light_switches_after H widget (light_state (this w))
          else light_switches (this w)) /\
       (open = true -> envmap_loaded H widget = true -> dirty' = true)).
Proof.
  destruct open.
  - eapply ensures_mono; [apply light_sets_switches|].
    intros d w' [Hsw Hd]. split; [exact Hsw | intros _; exact Hd].
  - apply ensures_ret. split; [reflexivity | done].
Qed.

Lemma light_state_switches s1 s2 :
  light_state s1 = light_state s2 -> light_switches s1 = light_switches s2.
Proof. unfold light_state, light_switches. by intros [= -> -> _ _]. Qed.

(** The switches after a completed [renderUI]: those the light group
    leaves when it is open, the previous ones when it is collapsed. *)
Lemma renderUI_light_switches w :
  ensures (renderUI H widget) w (fun _ w' =>
    light_switches (this w') =
      (if group_open widget "Light"
       then light_switches_after H widget (light_state (this w))
       else light_switches (this w)) /\
    (group_open widget "Light" = true -> envmap_loaded H widget = true ->
     mOptionsChanged (this w') = true)).
Proof.
  unfold renderUI.
  apply ensures_bind, ensures_on_params. cbv zeta beta.
  set (w0 := with_viewer _ w).
  assert (H0 : light_state (this w0) = light_state (this w)) by reflexivity.
  clearbody w0.
  apply ensures_bind. eapply ensures_mono;
    [apply optional_group_keeps, material_keeps_light_state|].
  intros d1 w1 [H1 _]. cbv beta.
  apply ensures_bind. eapply ensures_mono;
    [apply optional_group_keeps, bsdf_keeps_light_state|].
  intros d2 w2 [H2 _]. cbv beta.
  apply ensures_bind. eapply ensures_mono; [apply optional_light_group|].
  intros d3 w3 [H3 Hd3]. cbv beta.
  rewrite H2, H1, H0 in H3.
  rewrite (light_state_switches _ _ H2), (light_state_switches _ _ H1),
    (light_state_switches _ _ H0) in H3.
  clear H0 H1 H2.
  apply ensures_bind. eapply ensures_mono;
    [apply optional_group_keeps, camera_keeps_light_state|].
  intros d4 w4 [H4 Hd4]. cbv beta.
  apply light_state_switches in H4. rewrite H3 in H4. clear H3.
  apply ensures_bind, ensures_get. cbv beta.
  apply ensures_bind, ensures_modify_params. cbv beta.
  set (w5 := with_viewer _ w4).
  assert (H5 : light_switches (this w5) = light_switches (this w4)) by reflexivity.
  rewrite H4 in H5. clearbody w5. clear H4.
  apply ensures_bind.
  eapply (ensures_mono _ _
            (fun _ w' => light_switches (this w') = light_switches (this w5))).
  { unfold when. destruct (group_open widget "Pixel data").
    - eapply ensures_mono; [apply pixel_keeps_light_state|].
      intros [] w6. apply light_state_switches.
    - by apply ensures_ret. }
  intros [] w6 H6. cbv beta. rewrite H5 in H6. clear H5.
  unfold when. destruct d4 eqn:Ed4.
  - apply ensures_modify. split; [exact H6 | reflexivity].
  - apply ensures_ret. split; [exact H6|].
    intros Hopen Hloaded. discriminate (Hd4 (Hd3 Hopen Hloaded)).
Qed.

End RenderUI.

Section RenderUILights.

Context (H : Host) (widget : Gui).

Lemma light_switches_after_exclusive st :
  ~ ((light_switches_after H widget st).1 = true /\
     (light_switches_after H widget st).2 = true).
Proof.
  destruct st as [[[dir env] probe] name]. unfold light_switches_after.
  destruct (envmap_loaded H widget); cbn; [by intros [? _]|].
  destruct (checkbox widget "Directional light" dir).2, probe as [p|]; cbn;
    try destruct (checkbox widget _ _).2; cbn; try (by intros [? ?]).
  all: destruct env; by intros [? ?].
Qed.

End RenderUILights.



(** * The options stay exclusive across callbacks

    No other callback enables either light option, so once the two are
    exclusive they stay so, whatever the framework calls next. *)

Section Callbacks.

Context (H : Host).

Lemma setScene_keeps_directional pScene w :
  let s' := viewer_of (setScene H pScene w) in
  useDirectionalLight (mParams s') = useDirectionalLight (mParams (this w)) /\
  (useEnvMap (mParams s') = true -> useEnvMap (mParams (this w)) = true).
Proof.
  destruct pScene as [scene|]; [|by rewrite setScene_null].
  unfold setScene, loadEnvMap. unfold_M. cbn.
  destruct (mpViewerPass (this w)) as [pass|] eqn:Epass; cbn; [|done].
  destruct (getLightProbe scene) as [fn|]; cbn.
  - destruct (EnvProbe_create H fn) as [probe|]; cbn; rewrite ?Epass; cbn.
    + destruct (EnvProbe_setIntoConstantBuffer H probe pass "gEnvProbe"); cbn; [|done].
      decide_tests. cbn. rewrite push_materials_run. cbn. unfold assert, fail.
      destruct (asserts_enabled H && _); done.
    + decide_tests. cbn. rewrite push_materials_run. cbn. unfold assert, fail.
      destruct (asserts_enabled H && _); done.
  - decide_tests. cbn. rewrite push_materials_run. cbn. unfold assert, fail.
    destruct (asserts_enabled H && _); done.
Qed.

Lemma execute_keeps_light_switches w :
  light_switches (viewer_of (execute H w)) = light_switches (this w).
Proof.
  unfold execute, light_switches. unfold_M. cbn.
  destruct (mOptionsChanged (this w)); cbn;
    destruct (mpSampleGenerator (this w)) as [generator|]; cbn; try done;
    destruct (mpViewerPass (this w)) as [pass|]; cbn; try done;
    destruct (SampleGenerator_setIntoProgramVars H generator pass); cbn; try done;
    destruct (readback (mParams (this w))); cbn; try done;
    destruct (mPixelDataBuffer (this w)); cbn; done.
Qed.

Lemma callback_keeps_lights_exclusive c w :
  ensures (run_callback H c) w (fun _ w' =>
    exclusive_lights (this w) -> exclusive_lights (this w')).
Proof.
  destruct c as [dims | pScene | | widget | ev | ev]; cbn [run_callback].
  - unfold ensures. by rewrite compile_run.
  - pose proof (setScene_keeps_directional pScene w) as [Hdir Henv].
    unfold ensures, viewer_of in *. destruct (setScene H pScene w) as [[[]|f] w']; [|done].
    cbn in Hdir, Henv. unfold exclusive_lights. rewrite Hdir. intros Hex [Hd He].
    apply Hex. by split; [|apply Henv].
  - pose proof (execute_keeps_light_switches w) as Hsw.
    unfold ensures, viewer_of in *. destruct (execute H w) as [[[]|f] w']; [|done].
    cbn in Hsw. unfold exclusive_lights, light_switches in *. by injection Hsw as -> ->.
  - eapply ensures_mono; [apply renderUI_light_switches|].
    intros [] w' [Hsw _] Hex.
    destruct (group_open widget "Light").
    + pose proof (light_switches_after_exclusive H widget (light_state (this w))) as Hafter.
      rewrite <- Hsw in Hafter. exact Hafter.
    + unfold exclusive_lights, light_switches in *. by injection Hsw as -> ->.
  - apply ensures_bind. unfold ensures.
    destruct (decide (mouse_type ev = LeftButtonDown)) as [Eleft | Hne].
    + destruct ev as [t pos]; cbn in Eleft; subst t. rewrite onMouseEvent_left.
      unfold mret, M_ret, exclusive_lights. cbn. done.
    + rewrite onMouseEvent_other by done. unfold mret, M_ret. done.
  - apply ensures_bind. unfold ensures.
    destruct ev as [t k].
    destruct (decide (t = KeyPressed)) as [-> | Hne];
      [destruct k as [ | | code]|].
    + rewrite onKeyEvent_arrow by (by left).
      unfold mret, M_ret, exclusive_lights. cbn. done.
    + rewrite onKeyEvent_arrow by (by right).
      unfold mret, M_ret, exclusive_lights. cbn. done.
    + rewrite onKeyEvent_ignores; [by unfold mret, M_ret|]. right. by intros [? | ?].
    + rewrite onKeyEvent_ignores; [by unfold mret, M_ret|]. by left.
Qed.

End Callbacks.

(** * Further properties of loadEnvMap *)

Section LoadEnvMapMore.

Context (H : Host).

(** When the probe is created and binds, [loadEnvMap] returns [true], stores
    the probe, derives the display name from the source file name of the
    probe's map, logs nothing and changes no parameter. *)
Theorem loadEnvMap_success_installs_probe filename probe pass w :
  EnvProbe_create H filename = Some probe ->
  mpViewerPass (this w) = Some pass ->
  EnvProbe_setIntoConstantBuffer H probe pass "gEnvProbe" = true ->
  let r := loadEnvMap H filename w in
  result_of r = Returned true /\
  mpEnvProbe (viewer_of r) = Some probe /\
  mEnvProbeFilename (viewer_of r) =
    getFilenameFromPath H (envMapSourceFilename probe) /\
  warnings (world_of r) = warnings w /\
  mParams (viewer_of r) = mParams (this w).
Proof.
  intros Hprobe Hpass Hbind r. subst r.
  rewrite (loadEnvMap_probe H filename probe pass w Hprobe Hpass), Hbind.
  done.
Qed.

(** [loadEnvMap] returns [false] exactly when the probe cannot be created,
    and whenever it returns [true] a probe is installed. *)
Theorem loadEnvMap_result_reflects_probe filename w :
  let r := loadEnvMap H filename w in
  (result_of r = Returned false <-> EnvProbe_create H filename = None) /\
  (result_of r = Returned true ->
   mpEnvProbe (viewer_of r) = EnvProbe_create H filename /\
   is_Some (mpEnvProbe (viewer_of r))).
Proof.
  intros r. subst r. split; [apply loadEnvMap_false_iff|].
  destruct (EnvProbe_create H filename) as [probe|] eqn:E.
  - unfold loadEnvMap. rewrite E. unfold_M. cbn.
    destruct (mpViewerPass (this w)) as [pass|]; cbn; [|done].
    destruct (EnvProbe_setIntoConstantBuffer H probe pass "gEnvProbe"); cbn; [|done].
    intros _. eauto.
  - by rewrite (loadEnvMap_no_probe H filename w E).
Qed.

Lemma loadEnvMap_besides_probe filename w :
  let r := loadEnvMap H filename w in
  besides_probe (viewer_of r) = besides_probe (this w) /\
  dictionary (world_of r) = dictionary w.
Proof.
  intros r. subst r. unfold loadEnvMap.
  destruct (EnvProbe_create H filename) as [probe|]; [|done].
  unfold_M. cbn. destruct (mpViewerPass (this w)) as [pass|]; cbn; [|done].
  by destruct (EnvProbe_setIntoConstantBuffer H probe pass "gEnvProbe").
Qed.

(** On every path, also the throwing one, [loadEnvMap] writes nothing but the
    probe handle and its display name, and at most its one warning to the
    log: parameters, material list, scene, pixel data, flags, GPU handles
    and the dictionary are untouched. *)
Theorem loadEnvMap_writes_only_probe filename w :
  let r := loadEnvMap H filename w in
  besides_probe (viewer_of r) = besides_probe (this w) /\
  dictionary (world_of r) = dictionary w /\
  (warnings (world_of r) = warnings w \/
   warnings (world_of r) = warnings w ++ [load_warning filename]).
Proof.
  intros r. subst r.
  destruct (loadEnvMap_besides_probe filename w) as [Hpass Hdict].
  split; [exact Hpass|]. split; [exact Hdict|].
  destruct (EnvProbe_create H filename) as [probe|] eqn:E.
  - left. unfold loadEnvMap. rewrite E. unfold_M. cbn.
    destruct (mpViewerPass (this w)) as [pass|]; cbn; [|done].
    by destruct (EnvProbe_setIntoConstantBuffer H probe pass "gEnvProbe").
  - right. by rewrite (loadEnvMap_no_probe H filename w E).
Qed.

End LoadEnvMapMore.

Lemma loadEnvMap_success_installs_probe_witness :
  let r := loadEnvMap (Demo.host Demo.any_probe true) "maps/sky.hdr" Demo.world0 in
  result_of r = Returned true /\
  mpEnvProbe (viewer_of r) = Some (mkEnvProbe "maps/sky.hdr") /\
  mEnvProbeFilename (viewer_of r) = "maps/sky.hdr" /\
  warnings (world_of r) = [] /\
  mParams (viewer_of r) = Demo.params0.
Proof.
  apply (loadEnvMap_success_installs_probe (Demo.host Demo.any_probe true)
           "maps/sky.hdr" (mkEnvProbe "maps/sky.hdr")
           (mkComputePass kFileViewerPass) Demo.world0);
    reflexivity.
Defined.

(** * Further properties of onKeyEvent *)

Section KeyEventsMore.

Lemma press_viewer k w :
  arrow k ->
  let s := this w in
  let id' := key_target k (Z.of_nat (length (mMaterialList s)))
               (materialID (mParams s)) in
  this (press k w) =
    set_mParams (set_materialID id' (mParams s))
      (if negb (id' =? materialID (mParams s))
       then set_mOptionsChanged true s else s).
Proof.
  intros Hk. unfold press. by rewrite (onKeyEvent_arrow k w Hk).
Qed.

Lemma press_materialID k w :
  arrow k ->
  materialID (mParams (this (press k w))) =
    key_target k (Z.of_nat (length (mMaterialList (this w))))
      (materialID (mParams (this w))).
Proof. intros Hk. by rewrite (press_viewer k w Hk). Qed.

Lemma press_mMaterialList k w :
  arrow k -> mMaterialList (this (press k w)) = mMaterialList (this w).
Proof.
  intros Hk. rewrite (press_viewer k w Hk). cbn. by destruct (negb _).
Qed.

(** Events other than a pressed Left or Right arrow are not handled: the
    callback returns [false] and changes nothing. *)
Theorem onKeyEvent_ignores_other_events ev w :
  key_type ev <> KeyPressed \/ (key ev <> Key_Left /\ key ev <> Key_Right) ->
  onKeyEvent ev w = (Returned false, w).
Proof.
  intros [Ht | [Hl Hr]]; apply onKeyEvent_ignores; [by left|].
  right. by intros [? | ?].
Qed.

(** The Right arrow always lands inside the list, whatever the index was
    (also from a stale, out-of-range index); the Left arrow keeps an in-range
    index in range.  Here the list has [1 <= n <= 2^32] entries. *)
Theorem onKeyEvent_keeps_index_in_range w :
  let n := Z.of_nat (length (mMaterialList (this w))) in
  let id := materialID (mParams (this w)) in
  1 <= n <= 2 ^ 32 ->
  0 <= id < 2 ^ 32 ->
  0 <= materialID (mParams (this (press Key_Right w))) <= n - 1 /\
  (id <= n - 1 ->
   0 <= materialID (mParams (this (press Key_Left w))) <= n - 1).
Proof.
  intros n id Hn Hid. split.
  - rewrite press_materialID by (by right). fold n id. unfold key_target.
    destruct (0 <? n) eqn:E; [|apply Z.ltb_ge in E; lia].
    rewrite last_index by done.
    destruct (id <? n - 1) eqn:E'; [|lia].
    apply Z.ltb_lt in E'. unfold uint32. rewrite Z.mod_small; lia.
  - intros Hin. rewrite press_materialID by (by left). fold n id.
    rewrite key_target_left by lia. destruct (0 <? id) eqn:E; [|lia].
    apply Z.ltb_lt in E. lia.
Qed.

(** Left undoes Right and Right undoes Left on the material index, for an
    index inside a list of [1 <= n <= 2^32] entries. *)
Theorem onKeyEvent_left_right_round_trip w :
  let n := Z.of_nat (length (mMaterialList (this w))) in
  let id := materialID (mParams (this w)) in
  1 <= n <= 2 ^ 32 ->
  0 <= id <= n - 1 ->
  materialID (mParams (this (press Key_Left (press Key_Right w)))) = id /\
  materialID (mParams (this (press Key_Right (press Key_Left w)))) = id.
Proof.
  intros n id Hn Hid. split.
  - rewrite press_materialID, press_mMaterialList, press_materialID
      by first [by left | by right].
    fold n id. rewrite (key_target_right n id) by lia.
    destruct (id <? n - 1) eqn:E;
      [apply Z.ltb_lt in E | apply Z.ltb_ge in E];
      rewrite key_target_left by lia.
    + destruct (0 <? id + 1) eqn:E'; [lia | apply Z.ltb_ge in E'; lia].
    + cbn. lia.
  - rewrite press_materialID, press_mMaterialList, press_materialID
      by first [by left | by right].
    fold n id. rewrite (key_target_left n id) by lia.
    destruct (0 <? id) eqn:E;
      [apply Z.ltb_lt in E | apply Z.ltb_ge in E];
      rewrite key_target_right by lia.
    + destruct (id - 1 <? n - 1) eqn:E'; [lia | apply Z.ltb_ge in E'; lia].
    + destruct (n - 1 <? n - 1) eqn:E'; [apply Z.ltb_lt in E'; lia | lia].
Qed.

Lemma presses_mMaterialList k count w :
  arrow k -> mMaterialList (this (presses k count w)) = mMaterialList (this w).
Proof.
  intros Hk. induction count as [|count IH]; [done|].
  cbn. by rewrite press_mMaterialList.
Qed.

(** [count] presses of the Right arrow move the index [count] places forward
    around the list: from [id] to [(id + count) mod n]; [count] presses of
    the Left arrow move it to [(id - count) mod n]. *)
Theorem onKeyEvent_repeated_presses_cycle count w :
  let n := Z.of_nat (length (mMaterialList (this w))) in
  let id := materialID (mParams (this w)) in
  1 <= n <= 2 ^ 32 ->
  0 <= id <= n - 1 ->
  materialID (mParams (this (presses Key_Right count w))) =
    (id + Z.of_nat count) mod n /\
  materialID (mParams (this (presses Key_Left count w))) =
    (id - Z.of_nat count) mod n.
Proof.
  intros n id Hn Hid. split.
  - induction count as [|count IH].
    + cbn. fold id. rewrite Z.add_0_r. symmetry. apply Z.mod_small. lia.
    + change (presses Key_Right (S count) w)
        with (press Key_Right (presses Key_Right count w)).
      rewrite press_materialID, presses_mMaterialList, IH by (by right).
      fold n. set (j := (id + Z.of_nat count) mod n).
      assert (Hj : 0 <= j < n) by (apply Z.mod_pos_bound; lia).
      rewrite key_target_right by lia.
      replace (id + Z.of_nat (S count)) with (id + Z.of_nat count + 1) by lia.
      rewrite <- (Zplus_mod_idemp_l (id + Z.of_nat count)). fold j.
      destruct (j <? n - 1) eqn:E; [apply Z.ltb_lt in E | apply Z.ltb_ge in E].
      * symmetry. apply Z.mod_small. lia.
      * replace (j + 1) with n by lia. by rewrite Z_mod_same_full.
  - induction count as [|count IH].
    + cbn. fold id. rewrite Z.sub_0_r. symmetry. apply Z.mod_small. lia.
    + change (presses Key_Left (S count) w)
        with (press Key_Left (presses Key_Left count w)).
      rewrite press_materialID, presses_mMaterialList, IH by (by left).
      fold n. set (j := (id - Z.of_nat count) mod n).
      assert (Hj : 0 <= j < n) by (apply Z.mod_pos_bound; lia).
      rewrite key_target_left by lia.
      replace (id - Z.of_nat (S count)) with (id - Z.of_nat count - 1) by lia.
      rewrite <- (Zminus_mod_idemp_l (id - Z.of_nat count)). fold j.
      destruct (0 <? j) eqn:E; [apply Z.ltb_lt in E | apply Z.ltb_ge in E].
      * symmetry. apply Z.mod_small. lia.
      * apply (Z.mod_unique_pos (j - 1) n (-1) (n - 1)); lia.
Qed.

(** With an empty material list the arrows never invent an index: from index
    0 both leave it at 0 and leave the options-changed flag alone; from a
    stale index Right resets to 0 and Left steps down by one. *)
Theorem onKeyEvent_on_empty_list k w :
  arrow k ->
  mMaterialList (this w) = [] ->
  let id := materialID (mParams (this w)) in
  0 <= id < 2 ^ 32 ->
  materialID (mParams (this (press k w))) =
    (if bool_decide (k = Key_Right) then 0 else Z.max 0 (id - 1)) /\
  (id = 0 -> mOptionsChanged (this (press k w)) = mOptionsChanged (this w)).
Proof.
  intros Hk Hempty id Hid.
  rewrite (press_viewer k w Hk). rewrite Hempty. cbn. fold id.
  clearbody id.
  destruct Hk as [-> | ->]; cbn; decide_tests.
  - destruct (0 <? id) eqn:E; [apply Z.ltb_lt in E | apply Z.ltb_ge in E].
    + unfold uint32. rewrite Z.mod_small by lia. rewrite Z.max_r by lia.
      split; [reflexivity|]. intros ->. lia.
    + rewrite Z.max_l by lia. split; [reflexivity|]. intros ->. reflexivity.
  - change (Z.of_nat 0) with 0. cbn.
    destruct (id <? 0) eqn:E; [apply Z.ltb_lt in E; lia|].
    split; [reflexivity|]. intros ->. reflexivity.
Qed.

(** A key event of any kind writes nothing but the material index and the
    options-changed flag, and never lowers the flag. *)
Theorem onKeyEvent_writes_only_index_and_flag ev w :
  let r := onKeyEvent ev w in
  besides_material_index (viewer_of r) = besides_material_index (this w) /\
  warnings (world_of r) = warnings w /\
  dictionary (world_of r) = dictionary w /\
  (mOptionsChanged (this w) = true -> mOptionsChanged (viewer_of r) = true).
Proof.
  intros r. subst r. destruct ev as [t k].
  destruct (decide (t = KeyPressed)) as [-> | Hne].
  - destruct k as [ | | code].
    + rewrite onKeyEvent_arrow by (by left). cbn.
      by destruct (negb _); destruct (this w).
    + rewrite onKeyEvent_arrow by (by right). cbn.
      by destruct (negb _); destruct (this w).
    + rewrite onKeyEvent_ignores; [done|]. right. by intros [? | ?].
  - rewrite onKeyEvent_ignores; [done|]. by left.
Qed.

End KeyEventsMore.

Lemma onKeyEvent_ignores_other_events_witness :
  onKeyEvent (mkKeyboardEvent KeyReleased Key_Right)
    (Demo.with_materials [(0, "0: a"); (1, "1: b")] 0 Demo.world0) =
  (Returned false, Demo.with_materials [(0, "0: a"); (1, "1: b")] 0 Demo.world0).
Proof.
  apply (onKeyEvent_ignores_other_events (mkKeyboardEvent KeyReleased Key_Right)).
  left. discriminate.
Defined.

Lemma onKeyEvent_keeps_index_in_range_witness :
  let w := Demo.with_materials [(0, "0: a"); (1, "1: b")] 7 Demo.world0 in
  0 <= materialID (mParams (this (press Key_Right w))) <= 2 - 1 /\
  (7 <= 2 - 1 -> 0 <= materialID (mParams (this (press Key_Left w))) <= 2 - 1).
Proof.
  apply (onKeyEvent_keeps_index_in_range
           (Demo.with_materials [(0, "0: a"); (1, "1: b")] 7 Demo.world0));
    cbn; lia.
Defined.

Lemma onKeyEvent_left_right_round_trip_witness :
  let w := Demo.with_materials [(0, "0: a"); (1, "1: b"); (2, "2: c")] 2 Demo.world0 in
  materialID (mParams (this (press Key_Left (press Key_Right w)))) = 2 /\
  materialID (mParams (this (press Key_Right (press Key_Left w)))) = 2.
Proof.
  apply (onKeyEvent_left_right_round_trip
           (Demo.with_materials [(0, "0: a"); (1, "1: b"); (2, "2: c")] 2 Demo.world0));
    cbn; lia.
Defined.

Lemma onKeyEvent_repeated_presses_cycle_witness :
  let w := Demo.with_materials [(0, "0: a"); (1, "1: b"); (2, "2: c")] 1 Demo.world0 in
  materialID (mParams (this (presses Key_Right 7 w))) = (1 + 7) mod 3 /\
  materialID (mParams (this (presses Key_Left 7 w))) = (1 - 7) mod 3.
Proof.
  apply (onKeyEvent_repeated_presses_cycle 7
           (Demo.with_materials [(0, "0: a"); (1, "1: b"); (2, "2: c")] 1 Demo.world0));
    cbn; lia.
Defined.

Lemma onKeyEvent_on_empty_list_witness :
  let w := Demo.with_materials [] 0 Demo.world0 in
  materialID (mParams (this (press Key_Left w))) = 0 /\
  (0 = 0 -> mOptionsChanged (this (press Key_Left w)) = false).
Proof.
  apply (onKeyEvent_on_empty_list Key_Left (Demo.with_materials [] 0 Demo.world0)).
  - by left.
  - reflexivity.
  - cbn. lia.
Defined.

(** * Further properties of onMouseEvent *)

Section MouseEventsMore.

Context (H : Host).

(** A mouse event of any type writes nothing but the selected pixel, and is
    never consumed (the callback returns [false]). *)
Theorem onMouseEvent_writes_only_selected_pixel ev w :
  let r := onMouseEvent H ev w in
  result_of r = Returned false /\
  besides_selectedPixel (viewer_of r) = besides_selectedPixel (this w) /\
  warnings (world_of r) = warnings w /\
  dictionary (world_of r) = dictionary w.
Proof.
  intros r. subst r. destruct ev as [t pos].
  destruct (decide (t = LeftButtonDown)) as [-> | Hne].
  - rewrite onMouseEvent_left. cbn. by destruct (this w).
  - by rewrite onMouseEvent_other.
Qed.

(** The last click wins: a left click after another left click leaves the
    world exactly as the second click alone would. *)
Theorem onMouseEvent_last_click_wins pos1 pos2 w :
  onMouseEvent H (click pos2) (world_of (onMouseEvent H (click pos1) w)) =
  onMouseEvent H (click pos2) w.
Proof.
  unfold click. rewrite !onMouseEvent_left. reflexivity.
Qed.

(** Before any [compile], with a frame dimension of 0, nothing guards the
    clamp: its upper bound is -1 and a left click sets that component of the
    selected pixel to -1 wherever the cursor is. *)
Theorem onMouseEvent_on_empty_frame pos w :
  let sel := selectedPixel (mParams (viewer_of (onMouseEvent H (click pos) w))) in
  ((frameDim (mParams (this w))).1 = 0 -> sel.1 = -1) /\
  ((frameDim (mParams (this w))).2 = 0 -> sel.2 = -1).
Proof.
  unfold click. rewrite onMouseEvent_left. cbn.
  assert (Hclamp : forall x, glm_clamp x 0 (int32 (int32 0 - 1)) = -1).
  { intros x. change (int32 (int32 0 - 1)) with (-1).
    unfold glm_clamp, std_min, std_max.
    destruct (x <? 0) eqn:E0; [reflexivity|]. apply Z.ltb_ge in E0.
    destruct (-1 <? x) eqn:E; [reflexivity|]. apply Z.ltb_ge in E. lia. }
  split; intros ->; apply Hclamp.
Qed.

End MouseEventsMore.

Lemma onMouseEvent_on_empty_frame_witness :
  selectedPixel (mParams (viewer_of
    (onMouseEvent (Demo.host Demo.no_probe true) (click (0, 0)) Demo.world0))) =
  (-1, -1).
Proof.
  destruct (onMouseEvent_on_empty_frame (Demo.host Demo.no_probe true) (0, 0)
              Demo.world0) as [Hx Hy].
  specialize (Hx eq_refl). specialize (Hy eq_refl).
  destruct (selectedPixel _) as [x y]. cbn in Hx, Hy. by subst.
Defined.

(** * Further properties of compile *)

Section CompileMore.

Context (H : Host).

(** The square viewport touches the frame along its shorter side: in a
    frame at least as high as wide the horizontal offset is 0 and the scale
    is [1.f / width]; in a frame at least as wide as high the vertical
    offset is 0 and the scale is [1.f / height]. *)
Theorem compile_touches_shorter_side wd ht w :
  let p := mParams (viewer_of (compile H (wd, ht) w)) in
  let scale_of extent := f_div H (f_lit H "1.f") (f_of_uint H extent) in
  (wd <= ht ->
   (viewportOffset p).1 = f_of_uint H 0 /\
   viewportScale p = (scale_of wd, scale_of wd)) /\
  (ht <= wd ->
   (viewportOffset p).2 = f_of_uint H 0 /\
   viewportScale p = (scale_of ht, scale_of ht)).
Proof.
  intros p scale_of. subst p scale_of.
  rewrite compile_run. cbn. rewrite std_min_spec.
  split; intros Hle.
  - rewrite Z.min_l by done. by rewrite Z.sub_diag.
  - rewrite Z.min_r by done. by rewrite Z.sub_diag.
Qed.

(** Transposing the frame transposes the viewport: the offsets swap and the
    scale is the same. *)
Theorem compile_transposed_frame wd ht w :
  let p := mParams (viewer_of (compile H (wd, ht) w)) in
  let q := mParams (viewer_of (compile H (ht, wd) w)) in
  viewportOffset q = ((viewportOffset p).2, (viewportOffset p).1) /\
  viewportScale q = viewportScale p.
Proof.
  intros p q. subst p q. rewrite !compile_run. cbn.
  rewrite !std_min_spec, (Z.min_comm ht wd). done.
Qed.

(** The last [compile] wins: compiling for one frame size and then for
    another leaves the world exactly as compiling for the second alone. *)
Theorem compile_last_wins dims1 dims2 w :
  compile H dims2 (world_of (compile H dims1 w)) = compile H dims2 w.
Proof. rewrite !compile_run. reflexivity. Qed.

(** Nothing guards an empty frame: when either dimension is 0 the extent is
    0 and the viewport scale is the float quotient [1.f / 0]. *)
Theorem compile_on_empty_frame wd ht w :
  is_uint32 wd -> is_uint32 ht ->
  wd = 0 \/ ht = 0 ->
  viewportScale (mParams (viewer_of (compile H (wd, ht) w))) =
    (f_div H (f_lit H "1.f") (f_of_uint H 0),
     f_div H (f_lit H "1.f") (f_of_uint H 0)).
Proof.
  unfold is_uint32. intros Hw Hh Hzero.
  rewrite compile_run. cbn. rewrite std_min_spec.
  replace (Z.min wd ht) with 0 by lia. reflexivity.
Qed.

End CompileMore.

Lemma compile_touches_shorter_side_witness :
  let p := mParams (viewer_of
             (compile (Demo.host Demo.no_probe true) (480, 640) Demo.world0)) in
  (viewportOffset p).1 = 0 /\ (viewportOffset p).2 = 80.
Proof.
  intros p.
  destruct (compile_touches_shorter_side (Demo.host Demo.no_probe true) 480 640
              Demo.world0) as [Hportrait _].
  destruct Hportrait as [Hx _]; [lia|].
  split; [exact Hx | reflexivity].
Defined.

Lemma compile_on_empty_frame_witness :
  viewportScale (mParams (viewer_of
    (compile (Demo.host Demo.no_probe true) (0, 480) Demo.world0))) = (0, 0).
Proof.
  apply (compile_on_empty_frame (Demo.host Demo.no_probe true) 0 480 Demo.world0);
    [unfold is_uint32; lia.. | by left].
Defined.

(** * Further properties of execute *)

Section ExecuteMore.

Context (H : Host).

Ltac execute_paths w :=
  unfold execute; unfold_M; cbn;
  destruct (mOptionsChanged (this w)) eqn:?; cbn;
  (destruct (mpSampleGenerator (this w)) as [generator|] eqn:?; cbn;
   [ (destruct (mpViewerPass (this w)) as [pass|] eqn:?; cbn;
      [ (destruct (SampleGenerator_setIntoProgramVars H generator pass); cbn;
         [ (destruct (readback (mParams (this w))); cbn;
            [ destruct (mPixelDataBuffer (this w)) eqn:?; cbn | ]) | ]) | ]) | ]);
  repeat match goal with Hq : ?l = _ |- context [?l] => rewrite Hq end;
  try done.

(** On every path [execute] writes, in the pass, only its frame outputs:
    scene, probe, material list and index, light and camera options, frame
    size, selected pixel and GPU handles are untouched, and nothing is
    logged. *)
Theorem execute_writes_only_frame_outputs w :
  let r := execute H w in
  besides_frame_outputs (viewer_of r) = besides_frame_outputs (this w) /\
  warnings (world_of r) = warnings w.
Proof.
  cbn zeta. unfold besides_frame_outputs. execute_paths w.
Qed.

(** When the sample generator cannot be bound, [execute] throws before the
    dispatch: the pixel record, its validity flag, the texture coordinates
    and the frame counter are those of the previous frame, while the
    options-changed flag has already been consumed. *)
Theorem execute_bind_failure_aborts_frame generator pass w :
  mpSampleGenerator (this w) = Some generator ->
  mpViewerPass (this w) = Some pass ->
  SampleGenerator_setIntoProgramVars H generator pass = false ->
  let r := execute H w in
  result_of r = Failed (Exception "Failed to bind sample generator") /\
  mPixelData (viewer_of r) = mPixelData (this w) /\
  mPixelDataValid (viewer_of r) = mPixelDataValid (this w) /\
  texCoords (mParams (viewer_of r)) = texCoords (mParams (this w)) /\
  frameCount (mParams (viewer_of r)) = frameCount (mParams (this w)) /\
  mOptionsChanged (viewer_of r) = false.
Proof.
  intros Hgen Hpass Hbind. unfold execute. unfold_M. cbn.
  destruct (mOptionsChanged (this w)) eqn:Echanged; cbn;
    rewrite Hgen; cbn; rewrite Hpass; cbn; rewrite Hbind; cbn;
    rewrite ?Echanged; done.
Qed.

(** A change of options is signalled once: a second [execute] right after
    the first leaves the dictionary as the first left it. *)
Theorem execute_signals_once w :
  let w1 := world_of (execute H w) in
  dictionary (world_of (execute H w1)) = dictionary w1.
Proof.
  intros w1.
  destruct (execute_refresh H w) as [Hflag _]. fold w1 in Hflag.
  destruct (execute_refresh H w1) as [_ Hdict].
  change (viewer_of (execute H w)) with (this w1) in Hflag.
  by rewrite Hflag in Hdict.
Qed.

Lemma uint32_lor_idempotent prev flag :
  uint32 (Z.lor (uint32 (Z.lor prev flag)) flag) = uint32 (Z.lor prev flag).
Proof.
  unfold uint32. apply Z.bits_inj'. intros i Hi.
  destruct (Z.lt_ge_cases i 32) as [Hlow | Hhigh].
  - rewrite !Z.mod_pow2_bits_low, !Z.lor_spec by lia.
    rewrite Z.mod_pow2_bits_low, Z.lor_spec by lia.
    by destruct (Z.testbit prev i), (Z.testbit flag i).
  - by rewrite !Z.mod_pow2_bits_high by lia.
Qed.

(** Signalling is idempotent: when the options change again before the
    consumer has cleared the entry, the next [execute] leaves the dictionary
    as it was. *)
Theorem execute_signal_is_idempotent w :
  mOptionsChanged (this w) = true ->
  let w1 := world_of (execute H w) in
  dictionary (world_of (execute H (raise_options_changed w1))) = dictionary w1.
Proof.
  intros Hchanged w1.
  destruct (execute_refresh H w) as [_ Hdict1]. rewrite Hchanged in Hdict1.
  destruct (execute_refresh H (raise_options_changed w1)) as [_ Hdict2].
  cbn in Hdict2. fold w1 in Hdict1. rewrite Hdict2, Hdict1.
  unfold refreshed_flags at 1. rewrite lookup_insert_eq. cbn.
  unfold refreshed_flags. rewrite uint32_lor_idempotent.
  apply insert_insert_eq.
Qed.

Lemma execute_keeps_handles w :
  let s' := viewer_of (execute H w) in
  mpSampleGenerator s' = mpSampleGenerator (this w) /\
  mpViewerPass s' = mpViewerPass (this w) /\
  mPixelDataBuffer s' = mPixelDataBuffer (this w).
Proof. cbn zeta. execute_paths w. Qed.

(** The frame counter counts completed frames modulo [2^32]: on an
    initialized pass whose sample generator binds, every one of [n] calls of
    [execute] returns and the counter ends at [(frameCount + n) mod 2^32]. *)
Theorem execute_counts_frames generator pass buffer n w :
  mpSampleGenerator (this w) = Some generator ->
  mpViewerPass (this w) = Some pass ->
  mPixelDataBuffer (this w) = Some buffer ->
  SampleGenerator_setIntoProgramVars H generator pass = true ->
  0 <= frameCount (mParams (this w)) < 2 ^ 32 ->
  result_of (execute H (frames H n w)) = Returned tt /\
  frameCount (mParams (this (frames H n w))) =
    (frameCount (mParams (this w)) + Z.of_nat n) mod 2 ^ 32.
Proof.
  intros Hgen Hpass Hbuf Hbind Hrange.
  assert (Hinv :
    mpSampleGenerator (this (frames H n w)) = Some generator /\
    mpViewerPass (this (frames H n w)) = Some pass /\
    mPixelDataBuffer (this (frames H n w)) = Some buffer /\
    frameCount (mParams (this (frames H n w))) =
      (frameCount (mParams (this w)) + Z.of_nat n) mod 2 ^ 32).
  { induction n as [|n (IHgen & IHpass & IHbuf & IHcount)].
    - cbn. rewrite Z.add_0_r, Z.mod_small by done. done.
    - change (frames H (S n) w) with (world_of (execute H (frames H n w))).
      destruct (execute_keeps_handles (frames H n w)) as (Kgen & Kpass & Kbuf).
      pose proof (execute_run H generator pass buffer (frames H n w)
                    IHgen IHpass IHbuf) as Hrun.
      cbn zeta in Hrun. rewrite Hbind in Hrun.
      destruct Hrun as (_ & _ & _ & _ & Hcount).
      unfold viewer_of, world_of in *.
      rewrite Kgen, Kpass, Kbuf, Hcount, IHcount.
      repeat split; try done.
      unfold uint32. rewrite Zplus_mod_idemp_l. f_equal. lia. }
  destruct Hinv as (Igen & Ipass & Ibuf & Icount). split; [|exact Icount].
  pose proof (execute_run H generator pass buffer (frames H n w) Igen Ipass Ibuf)
    as Hrun.
  cbn zeta in Hrun. rewrite Hbind in Hrun. apply Hrun.
Qed.

End ExecuteMore.

Lemma execute_bind_failure_aborts_frame_witness :
  let H := mkHost
    (fun file _ _ _ => Some (mkComputePass file))
    (fun type => Some (mkSampleGenerator type))
    (fun _ name _ => Some (mkStructuredBuffer name))
    Demo.no_probe (fun _ _ _ => true) (fun _ _ => false)
    (fun _ => Demo.pixel0) (fun path => path) None true
    "_refreshFlags" 1 0 Demo.params0 Demo.pixel0 false false
    (fun u => u) (fun f => f) (fun _ => 0)
    (fun a b => a * b) (fun a b => a `div` b) (fun a => a) (fun a => a) in
  let r := execute H (raise_options_changed Demo.world0) in
  result_of r = Failed (Exception "Failed to bind sample generator") /\
  frameCount (mParams (viewer_of r)) = 0 /\
  mOptionsChanged (viewer_of r) = false /\
  dictionary (world_of r) !! "_refreshFlags" = Some 1.
Proof.
  intros H r.
  destruct (execute_bind_failure_aborts_frame H (mkSampleGenerator 0)
              (mkComputePass kFileViewerPass) (raise_options_changed Demo.world0)
              eq_refl eq_refl eq_refl)
    as (Hres & _ & _ & _ & Hcount & Hflag).
  split; [exact Hres|]. split; [exact Hcount|]. split; [exact Hflag|].
  reflexivity.
Defined.

Lemma execute_signal_is_idempotent_witness :
  let w := raise_options_changed Demo.world0 in
  let w1 := world_of (execute (Demo.host Demo.no_probe true) w) in
  dictionary (world_of (execute (Demo.host Demo.no_probe true)
                          (raise_options_changed w1))) = dictionary w1.
Proof.
  apply (execute_signal_is_idempotent (Demo.host Demo.no_probe true)
           (raise_options_changed Demo.world0)).
  reflexivity.
Defined.

Lemma execute_counts_frames_witness :
  let H := Demo.host Demo.no_probe true in
  let w := mkWorld (set_mParams (set_frameCount 4294967295 Demo.params0) Demo.viewer0)
             [] ∅ in
  result_of (execute H (frames H 2 w)) = Returned tt /\
  frameCount (mParams (this (frames H 2 w))) = 1.
Proof.
  apply (execute_counts_frames (Demo.host Demo.no_probe true)
           (mkSampleGenerator 0) (mkComputePass kFileViewerPass)
           (mkStructuredBuffer "gPixelData") 2
           (mkWorld (set_mParams (set_frameCount 4294967295 Demo.params0) Demo.viewer0)
              [] ∅));
    try reflexivity.
  cbn. lia.
Defined.

(** * Further properties of setScene *)

Section SetSceneMore.

Context (H : Host).

(** When the environment map of the scene's light probe cannot be bound,
    [setScene] throws half way: the scene and the probe are already stored
    and the material index is reset, but the material list, cleared at the
    start, has not been rebuilt. *)
Theorem setScene_bind_failure_leaves_empty_list scene pass fn probe w :
  mpViewerPass (this w) = Some pass ->
  getLightProbe scene = Some fn ->
  EnvProbe_create H fn = Some probe ->
  EnvProbe_setIntoConstantBuffer H probe pass "gEnvProbe" = false ->
  let r := setScene H (Some scene) w in
  result_of r = Failed (Exception "Failed to bind EnvProbe to program") /\
  mMaterialList (viewer_of r) = [] /\
  mpScene (viewer_of r) = Some scene /\
  mpEnvProbe (viewer_of r) = Some probe /\
  materialID (mParams (viewer_of r)) = 0.
Proof.
  intros Hpass Hfn Hprobe Hbind. unfold setScene, loadEnvMap. unfold_M. cbn.
  rewrite Hpass, Hfn, Hprobe. cbn. rewrite Hpass. cbn. rewrite Hbind. cbn. done.
Qed.

(** A scene whose light-probe file cannot be loaded is attached all the
    same: one warning is logged, no probe is stored, the environment-map
    option is switched off and the material list is built. *)
Theorem setScene_survives_unloadable_probe scene pass fn w :
  mpViewerPass (this w) = Some pass ->
  getLightProbe scene = Some fn ->
  EnvProbe_create H fn = None ->
  let r := setScene H (Some scene) w in
  warnings (world_of r) = warnings w ++ [load_warning fn] /\
  mpEnvProbe (viewer_of r) = None /\
  useEnvMap (mParams (viewer_of r)) = false /\
  mMaterialList (viewer_of r) = material_list scene /\
  mpScene (viewer_of r) = Some scene.
Proof.
  intros Hpass Hfn Hprobe. unfold setScene, loadEnvMap. unfold_M. cbn.
  rewrite Hpass, Hfn, Hprobe. cbn. decide_tests. cbn.
  rewrite push_materials_run. cbn. unfold assert, fail.
  destruct (asserts_enabled H && _); done.
Qed.

Ltac setScene_paths scene w :=
  unfold setScene, loadEnvMap; unfold_M; cbn;
  destruct (mpViewerPass (this w)) as [pass|] eqn:Epass; cbn; [|try done];
  (destruct (getLightProbe scene) as [fn|]; cbn;
   [ (destruct (EnvProbe_create H fn) as [probe|]; cbn; rewrite ?Epass; cbn;
      [ (destruct (EnvProbe_setIntoConstantBuffer H probe pass "gEnvProbe"); cbn;
         [ decide_tests; cbn; rewrite push_materials_run; cbn; unfold assert, fail;
           destruct (asserts_enabled H && _); cbn
         | ])
      | decide_tests; cbn; rewrite push_materials_run; cbn; unfold assert, fail;
        destruct (asserts_enabled H && _); cbn ])
   | decide_tests; cbn; rewrite push_materials_run; cbn; unfold assert, fail;
     destruct (asserts_enabled H && _); cbn ]).

(** On every path, [setScene] stores the scene pointer it is given and
    resets the material index to 0; it never turns the environment-map
    option on and never touches the directional-light option, the
    scene-material option of a non-null scene, or the dictionary. *)
Theorem setScene_resets_selection pScene w :
  let r := setScene H pScene w in
  mpScene (viewer_of r) = pScene /\
  materialID (mParams (viewer_of r)) = 0 /\
  (useEnvMap (mParams (viewer_of r)) = true -> useEnvMap (mParams (this w)) = true) /\
  useDirectionalLight (mParams (viewer_of r)) = useDirectionalLight (mParams (this w)) /\
  (is_Some pScene ->
   useSceneMaterial (mParams (viewer_of r)) = useSceneMaterial (mParams (this w))) /\
  dictionary (world_of r) = dictionary w.
Proof.
  destruct pScene as [scene|].
  - cbn zeta. setScene_paths scene w; done.
  - rewrite setScene_null. cbn. repeat split; done.
Qed.

(** After every completed [setScene], the environment-map option is on only
    if a probe is loaded, and the material index points into the list
    unless the list is empty. *)
Theorem setScene_leaves_consistent_selection pScene w :
  let r := setScene H pScene w in
  result_of r = Returned tt ->
  (useEnvMap (mParams (viewer_of r)) = true -> is_Some (mpEnvProbe (viewer_of r))) /\
  (mMaterialList (viewer_of r) <> [] ->
   0 <= materialID (mParams (viewer_of r))
     < Z.of_nat (length (mMaterialList (viewer_of r)))).
Proof.
  destruct pScene as [scene|].
  - cbn zeta. setScene_paths scene w; try done.
    all: intros _; split; [done || eauto|].
    all: intros Hne; split; [done|];
      destruct (material_list scene); [done | cbn; lia].
  - rewrite setScene_null. cbn. done.
Qed.

End SetSceneMore.

Lemma setScene_bind_failure_leaves_empty_list_witness :
  let scene := mkScene 2 (fun i => if i =? 0 then "gold" else "glass") (Some "sky.hdr") in
  let r := setScene (Demo.host Demo.any_probe false) (Some scene) Demo.world0 in
  result_of r = Failed (Exception "Failed to bind EnvProbe to program") /\
  mMaterialList (viewer_of r) = [] /\
  mpScene (viewer_of r) = Some scene.
Proof.
  intros scene r.
  destruct (setScene_bind_failure_leaves_empty_list (Demo.host Demo.any_probe false)
              scene (mkComputePass kFileViewerPass) "sky.hdr" (mkEnvProbe "sky.hdr")
              Demo.world0 eq_refl eq_refl eq_refl eq_refl)
    as (Hres & Hlist & Hscene & _).
  split; [exact Hres|]. split; [exact Hlist | exact Hscene].
Defined.

Lemma setScene_survives_unloadable_probe_witness :
  let scene := mkScene 1 (fun _ => "gold") (Some "missing.hdr") in
  let r := setScene (Demo.host Demo.no_probe true) (Some scene) Demo.world0 in
  warnings (world_of r) = ["Failed to load environment map from missing.hdr"] /\
  mpEnvProbe (viewer_of r) = None /\
  useEnvMap (mParams (viewer_of r)) = false /\
  mMaterialList (viewer_of r) = [(0, "0: gold")] /\
  mpScene (viewer_of r) = Some scene.
Proof.
  apply (setScene_survives_unloadable_probe (Demo.host Demo.no_probe true)
           (mkScene 1 (fun _ => "gold") (Some "missing.hdr"))
           (mkComputePass kFileViewerPass) "missing.hdr" Demo.world0);
    reflexivity.
Defined.

Lemma setScene_leaves_consistent_selection_witness :
  let scene := mkScene 2 (fun i => if i =? 0 then "gold" else "glass") None in
  let r := setScene (Demo.host Demo.no_probe true) (Some scene) DemoUI.envmap_world in
  (useEnvMap (mParams (viewer_of r)) = true -> is_Some (mpEnvProbe (viewer_of r))) /\
  (mMaterialList (viewer_of r) <> [] ->
   0 <= materialID (mParams (viewer_of r))
     < Z.of_nat (length (mMaterialList (viewer_of r)))).
Proof.
  apply (setScene_leaves_consistent_selection (Demo.host Demo.no_probe true)
           (Some (mkScene 2 (fun i => if i =? 0 then "gold" else "glass") None))
           DemoUI.envmap_world).
  reflexivity.
Defined.

(** * The labels of the material list *)

Section Labels.

Lemma all_digits_app u v :
  all_digits (u +:+ v) = all_digits u && all_digits v.
Proof.
  induction u as [|c u IH]; [done|].
  change (is_digit c && all_digits (u +:+ v) =
          is_digit c && all_digits u && all_digits v).
  rewrite IH. by rewrite andb_assoc.
Qed.

Lemma pretty_N_char_digit x : is_digit (pretty_N_char x) = true.
Proof. unfold pretty_N_char. by repeat case_match. Qed.

Lemma string_app_assoc (u v t : string) : (u +:+ v) +:+ t = u +:+ (v +:+ t).
Proof.
  induction u as [|c u IH]; [done|].
  change (String c ((u +:+ v) +:+ t) = String c (u +:+ (v +:+ t))).
  by rewrite IH.
Qed.

Lemma pretty_N_go_digits x s :
  exists d, pretty_N_go x s = d +:+ s /\ all_digits d = true.
Proof.
  revert s. induction (N.lt_wf_0 x) as [x _ IH]. intros s.
  assert (x = 0 \/ 0 < x)%N as [-> | Hpos] by lia.
  - exists EmptyString. by rewrite pretty_N_go_0.
  - rewrite pretty_N_go_step by done.
    destruct (IH (x `div` 10)%N (N.div_lt x 10 Hpos eq_refl)
                (String (pretty_N_char (x `mod` 10)) s)) as (d & -> & Hd).
    exists (d +:+ String (pretty_N_char (x `mod` 10)) EmptyString).
    split; [by rewrite string_app_assoc|].
    rewrite all_digits_app, Hd. cbn. by rewrite pretty_N_char_digit.
Qed.

Lemma pretty_Z_digits (i : Z) : 0 <= i -> all_digits (pretty i) = true.
Proof.
  intros Hi. destruct i as [|p|p]; [done| |lia].
  unfold pretty, pretty_Z, pretty, pretty_positive, pretty, pretty_N.
  case_decide; [done|].
  destruct (pretty_N_go_digits (N.pos p) EmptyString) as (d & -> & Hd).
  by rewrite all_digits_app, Hd.
Qed.

Lemma digits_prefix_unique u u' c r r' :
  all_digits u = true -> all_digits u' = true -> is_digit c = false ->
  u +:+ String c r = u' +:+ String c r' -> u = u'.
Proof.
  revert u'. induction u as [|a u IH]; intros [|a' u'] Hu Hu' Hc Heq; cbn in *.
  - done.
  - injection Heq as -> _. apply andb_prop in Hu' as [Ha _]. congruence.
  - injection Heq as -> _. apply andb_prop in Hu as [Ha _]. congruence.
  - injection Heq as -> Heq.
    apply andb_prop in Hu as [_ Hu]. apply andb_prop in Hu' as [_ Hu'].
    f_equal. by apply (IH u').
Qed.

Lemma material_label_inj scene i j :
  0 <= i -> 0 <= j ->
  (material_entry scene i).2 = (material_entry scene j).2 -> i = j.
Proof.
  intros Hi Hj Heq. unfold material_entry in Heq. cbn in Heq.
  apply digits_prefix_unique in Heq;
    [ | by apply pretty_Z_digits | by apply pretty_Z_digits | done ].
  by apply (inj pretty).
Qed.

(** The labels of the material list are pairwise distinct, also when
    materials share a name: each label starts with the decimal index of its
    entry, closed by a colon. *)
Theorem material_labels_distinct scene :
  NoDup (snd <$> material_list scene).
Proof.
  unfold material_list. rewrite <- list_fmap_compose.
  apply NoDup_fmap_2_strong; [|apply NoDup_seqZ].
  intros i j Hi Hj Heq. apply elem_of_seqZ in Hi, Hj.
  apply (material_label_inj scene i j); [lia | lia | exact Heq].
Qed.

End Labels.

(** * Null pointers *)

Section Safety.

Context (H : Host).

Lemma safe_ret {A} (a : A) : always_safe (mret a).
Proof. by intros w Hw. Qed.

Lemma safe_bind {A B} (m : M A) (k : A -> M B) :
  always_safe m -> (forall a, always_safe (k a)) -> always_safe (m ≫= k).
Proof.
  intros Hm Hk w Hw. specialize (Hm w Hw).
  unfold result_of, viewer_of, mbind, M_bind in *.
  destruct (m w) as [[a|f] w']; [apply Hk, Hm|].
  destruct Hm as [Hf Hinit]. split; [|exact Hinit].
  cbn in *. intros [= ->]. by apply Hf.
Qed.

Lemma safe_get : always_safe get.
Proof. by intros w Hw. Qed.

Lemma safe_modify f :
  (forall s, fully_initialized s -> fully_initialized (f s)) ->
  always_safe (modify f).
Proof. intros Hf w Hw. split; [done|]. by apply Hf. Qed.

Lemma safe_modify_params f : always_safe (modify_params f).
Proof. by intros w Hw. Qed.

Lemma safe_on_params {A} (wdg : A -> bool * A) field set :
  always_safe (on_params wdg field set).
Proof. by intros w Hw. Qed.

Lemma safe_on_pixel {A} (wdg : A -> bool * A) field set :
  always_safe (on_pixel wdg field set).
Proof. by intros w Hw. Qed.

Lemma safe_assert cond : always_safe (assert H cond).
Proof.
  intros w Hw. unfold assert, fail.
  by destruct (asserts_enabled H && negb cond).
Qed.

Lemma safe_loadEnvMap filename : always_safe (loadEnvMap H filename).
Proof.
  intros w Hw. destruct (Hw) as ([pass Hpass] & Hgen & Hbuf).
  destruct (EnvProbe_create H filename) as [probe|] eqn:E.
  - rewrite (loadEnvMap_probe H filename probe pass w E Hpass).
    split; [by destruct (EnvProbe_setIntoConstantBuffer _ _ _ _)|exact Hw].
  - by rewrite (loadEnvMap_no_probe H filename w E).
Qed.

Ltac safe_step :=
  lazymatch goal with
  | |- always_safe (mbind _ _) => apply safe_bind; [|intros ?]
  | |- always_safe (mret _) => apply safe_ret
  | |- always_safe get => apply safe_get
  | |- always_safe (modify_params _) => apply safe_modify_params
  | |- always_safe (modify _) => apply safe_modify; intros ? Hinit; exact Hinit
  | |- always_safe (on_params _ _ _) => apply safe_on_params
  | |- always_safe (on_pixel _ _ _) => apply safe_on_pixel
  | |- always_safe (assert _ _) => apply safe_assert
  | |- always_safe (loadEnvMap _ _) => apply safe_loadEnvMap
  | |- always_safe (when ?b _) => unfold when; destruct b
  | |- always_safe (if ?b then _ else _) => destruct b
  | |- always_safe (match ?o with Some _ => _ | None => _ end) => destruct o
  end.

Lemma safe_renderUI widget : always_safe (renderUI H widget).
Proof.
  unfold renderUI, renderUI_material, renderUI_bsdf, renderUI_light,
    renderUI_camera, renderUI_pixel.
  repeat safe_step.
Qed.

Lemma safe_setScene pScene : always_safe (setScene H pScene).
Proof.
  intros w Hw. destruct pScene as [scene|]; [|by rewrite setScene_null].
  destruct (Hw) as ([pass Hpass] & [generator Hgen] & [buffer Hbuf]).
  unfold fully_initialized, setScene, loadEnvMap. unfold_M. cbn. rewrite Hpass.
  destruct (getLightProbe scene) as [fn|]; cbn.
  - destruct (EnvProbe_create H fn) as [probe|]; cbn; rewrite ?Hpass; cbn.
    + destruct (EnvProbe_setIntoConstantBuffer H probe pass "gEnvProbe"); cbn.
      * decide_tests. cbn. rewrite push_materials_run. cbn. unfold assert, fail.
        destruct (asserts_enabled H && _); cbn; rewrite Hpass, Hgen, Hbuf; eauto.
      * rewrite Hpass, Hgen, Hbuf. eauto.
    + decide_tests. cbn. rewrite push_materials_run. cbn. unfold assert, fail.
      destruct (asserts_enabled H && _); cbn; rewrite Hpass, Hgen, Hbuf; eauto.
  - decide_tests. cbn. rewrite push_materials_run. cbn. unfold assert, fail.
    destruct (asserts_enabled H && _); cbn; rewrite Hpass, Hgen, Hbuf; eauto.
Qed.

Lemma safe_execute : always_safe (execute H).
Proof.
  intros w Hw. destruct (Hw) as ([pass Hpass] & [generator Hgen] & [buffer Hbuf]).
  pose proof (execute_run H generator pass buffer w Hgen Hpass Hbuf) as Hrun.
  destruct (execute_keeps_handles H w) as (Kgen & Kpass & Kbuf).
  cbn zeta in *. split.
  - destruct (SampleGenerator_setIntoProgramVars H generator pass);
      destruct Hrun as [-> _]; done.
  - unfold fully_initialized. rewrite Kgen, Kpass, Kbuf. exact Hw.
Qed.

Lemma safe_callback c : always_safe (run_callback H c).
Proof.
  destruct c as [dims | pScene | | widget | ev | ev]; cbn [run_callback].
  - intros w Hw. by rewrite compile_run.
  - apply safe_setScene.
  - apply safe_execute.
  - apply safe_renderUI.
  - apply safe_bind; [|intros ?; apply safe_ret].
    intros w Hw. destruct ev as [t pos].
    destruct (decide (t = LeftButtonDown)) as [-> | Hne].
    + by rewrite onMouseEvent_left.
    + by rewrite onMouseEvent_other.
  - apply safe_bind; [|intros ?; apply safe_ret].
    intros w Hw. destruct ev as [t k].
    destruct (decide (t = KeyPressed)) as [-> | Hne]; [destruct k as [ | | code]|].
    + rewrite onKeyEvent_arrow by (by left). split; [done|].
      unfold viewer_of. cbn. by destruct (negb _).
    + rewrite onKeyEvent_arrow by (by right). split; [done|].
      unfold viewer_of. cbn. by destruct (negb _).
    + rewrite onKeyEvent_ignores; [done|]. right. by intros [? | ?].
    + rewrite onKeyEvent_ignores; [done|]. by left.
Qed.

Lemma after_snoc cs c w :
  after H (cs ++ [c]) w = world_of (run_callback H c (after H cs w)).
Proof. unfold after. by rewrite fold_left_app. Qed.

(** A pass returned by [create] never dereferences a null pointer: after any
    sequence of callbacks, whatever they returned or threw, the pass is
    still fully initialized and the next callback does not fail on a null
    pointer. *)
Theorem created_pass_never_dereferences_null pPass log dict cs c :
  create H = Returned (Some pPass) ->
  let w := after H cs (mkWorld pPass log dict) in
  fully_initialized (this w) /\
  result_of (run_callback H c w) <> Failed NullPointer.
Proof.
  intros Hcreate w.
  assert (Hinit : fully_initialized (this w)).
  { subst w. induction cs as [|c' cs IH] using rev_ind.
    - cbn. rewrite create_run in Hcreate.
      destruct (ComputePass_create _ _ _ _ _) as [pass|]; [|done].
      destruct (SampleGenerator_create _ _) as [generator|]; [|done].
      destruct (StructuredBuffer_create _ _ _ _) as [buffer|]; [|done].
      injection Hcreate as <-. unfold fully_initialized, initialized_with. cbn.
      eauto.
    - rewrite after_snoc. apply (safe_callback c' _ IH). }
  split; [exact Hinit|]. apply (safe_callback c w Hinit).
Qed.

End Safety.

Lemma created_pass_never_dereferences_null_witness :
  let H := Demo.host Demo.any_probe true in
  let scene := mkScene 2 (fun i => if i =? 0 then "gold" else "glass") (Some "sky.hdr") in
  let w := after H [Compile (640, 480); SetScene (Some scene); Execute]
             (mkWorld Demo.viewer0 [] ∅) in
  fully_initialized (this w) /\
  result_of (run_callback H (RenderUI DemoUI.tick_directional) w) <> Failed NullPointer.
Proof.
  intros H scene.
  apply (created_pass_never_dereferences_null H Demo.viewer0 [] ∅
           [Compile (640, 480); SetScene (Some scene); Execute]
           (RenderUI DemoUI.tick_directional)).
  reflexivity.
Defined.

(** * What renderUI keeps *)

Section Maintains.

Context (H : Host) (I : World -> Prop).

Lemma maintains_ret {A} (a : A) : maintains I (mret a).
Proof. by intros w Hw. Qed.

Lemma maintains_bind {A B} (m : M A) (k : A -> M B) :
  maintains I m -> (forall a, maintains I (k a)) -> maintains I (m ≫= k).
Proof.
  intros Hm Hk w Hw. specialize (Hm w Hw).
  unfold world_of, mbind, M_bind in *.
  destruct (m w) as [[a|f] w']; [by apply Hk | exact Hm].
Qed.

Lemma maintains_get : maintains I get.
Proof. by intros w Hw. Qed.

Lemma maintains_assert cond : maintains I (assert H cond).
Proof.
  intros w Hw. unfold assert, fail.
  by destruct (asserts_enabled H && negb cond).
Qed.

Lemma maintains_modify f :
  (forall w, I w -> I (with_viewer (f (this w)) w)) -> maintains I (modify f).
Proof. intros Hf w Hw. by apply Hf. Qed.

Lemma maintains_modify_params f :
  (forall w, I w -> I (with_viewer (set_mParams (f (mParams (this w))) (this w)) w)) ->
  maintains I (modify_params f).
Proof. intros Hf w Hw. by apply Hf. Qed.

Lemma maintains_on_params {A} (wdg : A -> bool * A) field set :
  (forall v w, I w -> I (with_viewer (set_mParams (set v (mParams (this w))) (this w)) w)) ->
  maintains I (on_params wdg field set).
Proof. intros Hset w Hw. by apply Hset. Qed.

Lemma maintains_on_pixel {A} (wdg : A -> bool * A) field set :
  (forall v w, I w ->
     I (with_viewer (set_mPixelData (set v (mPixelData (this w))) (this w)) w)) ->
  maintains I (on_pixel wdg field set).
Proof. intros Hset w Hw. by apply Hset. Qed.

(** [loadEnvMap] maintains whatever does not look at the probe, its name or
    the log. *)
Lemma maintains_loadEnvMap filename :
  (forall s log w, I w -> besides_probe s = besides_probe (this w) ->
     I (mkWorld s log (dictionary w))) ->
  maintains I (loadEnvMap H filename).
Proof.
  intros Hblind w Hw.
  destruct (loadEnvMap_besides_probe H filename w) as [Hprobe Hdict].
  unfold viewer_of, world_of in *.
  destruct (loadEnvMap H filename w) as [o [s log d]]. cbn in *. subst d.
  by apply Hblind.
Qed.

End Maintains.

Ltac maintains_step :=
  lazymatch goal with
  | |- maintains _ (mbind _ _) => apply maintains_bind; [|intros ?]
  | |- maintains _ (mret _) => apply maintains_ret
  | |- maintains _ get => apply maintains_get
  | |- maintains _ (assert _ _) => apply maintains_assert
  | |- maintains _ (modify_params _) => apply maintains_modify_params
  | |- maintains _ (modify _) => apply maintains_modify
  | |- maintains _ (on_params _ _ _) => apply maintains_on_params
  | |- maintains _ (on_pixel _ _ _) => apply maintains_on_pixel
  | |- maintains _ (loadEnvMap _ _) => apply maintains_loadEnvMap
  | |- maintains _ (when ?b _) => unfold when; destruct b
  | |- maintains _ (if ?b then _ else _) => destruct b
  | |- maintains _ (match ?o with Some _ => _ | None => _ end) => destruct o
  end.

Ltac unfold_renderUI :=
  unfold renderUI, renderUI_material, renderUI_bsdf, renderUI_light,
    renderUI_camera, renderUI_pixel.

Section RenderUIKeeps.

Context (H : Host) (widget : Gui).

(** On every path, [renderUI] leaves alone what sizing, scene attachment and
    the frame loop own: frame size, viewport placement, frame counter,
    derived camera scale, material list, scene pointer, validity flag of the
    pixel record, GPU handles and the dictionary. *)
Theorem renderUI_keeps_frame_and_scene w :
  frame_and_scene (world_of (renderUI H widget w)) = frame_and_scene w.
Proof.
  assert (Hkeeps : maintains (fun w' => frame_and_scene w' = frame_and_scene w)
                     (renderUI H widget)); [|by apply Hkeeps].
  unfold_renderUI. repeat maintains_step.
  all: try (intros; assumption).
  intros s0 log w0 Hw0 Hs. rewrite <- Hw0.
  destruct s0, w0 as [[] ? ?]. unfold besides_probe, frame_and_scene in *.
  cbn in *. by injection Hs as -> -> -> -> -> -> -> -> ->.
Qed.

End RenderUIKeeps.

Section RenderUIGroups.

Context (H : Host) (widget : Gui).

Lemma besides_probe_eq s s' :
  besides_probe s = besides_probe s' ->
  mParams s = mParams s' /\ mPixelData s = mPixelData s' /\
  mOptionsChanged s = mOptionsChanged s' /\ mpScene s = mpScene s'.
Proof.
  destruct s, s'. unfold besides_probe. cbn.
  by intros [= -> -> -> -> -> -> -> -> ->].
Qed.

Ltac keeps_view view w :=
  let Hkeeps := fresh "Hkeeps" in
  assert (Hkeeps : maintains (fun w' => view w' = view w) (renderUI H widget));
  [ unfold_renderUI;
    repeat match goal with Hclosed : group_open _ _ = false |- _ =>
             rewrite Hclosed; clear Hclosed end;
    repeat maintains_step;
    try (intros; assumption);
    (let s0 := fresh in let w0 := fresh in let Hw0 := fresh in let Hs := fresh in
     intros s0 ? w0 Hw0 Hs; rewrite <- Hw0;
     apply besides_probe_eq in Hs as (Hp & Hd & _ & _);
     unfold view; cbn; by rewrite Hp, ?Hd)
  | by apply Hkeeps ].

(** A collapsed group edits nothing: on every path of [renderUI], the
    options shown in a group that is not open are left as they were (and
    with the light group collapsed no probe is loaded and nothing is
    logged). *)
Theorem renderUI_collapsed_group_keeps_its_options w :
  let w' := world_of (renderUI H widget w) in
  (group_open widget "Material" = false -> material_view w' = material_view w) /\
  (group_open widget "BSDF" = false -> bsdf_view w' = bsdf_view w) /\
  (group_open widget "Light" = false -> light_view w' = light_view w) /\
  (group_open widget "Camera" = false -> camera_view w' = camera_view w) /\
  (group_open widget "Pixel data" = false -> pixel_view w' = pixel_view w).
Proof.
  cbn zeta. repeat split; intros Hclosed.
  - keeps_view material_view w.
  - keeps_view bsdf_view w.
  - keeps_view light_view w.
  - keeps_view camera_view w.
  - keeps_view pixel_view w.
Qed.

(** [renderUI] never lowers the options-changed flag, on any path. *)
Theorem renderUI_never_lowers_flag w :
  mOptionsChanged (this w) = true ->
  mOptionsChanged (viewer_of (renderUI H widget w)) = true.
Proof.
  assert (Hkeeps : maintains (fun w' => mOptionsChanged (this w') = true)
                     (renderUI H widget)); [|by apply Hkeeps].
  unfold_renderUI. repeat maintains_step.
  all: try (intros; assumption).
  - intros s0 log w0 Hw0 Hs. apply besides_probe_eq in Hs as (_ & _ & Hflag & _).
    cbn. by rewrite Hflag.
  - intros; reflexivity.
Qed.

End RenderUIGroups.

Lemma renderUI_collapsed_group_keeps_its_options_witness :
  let widget :=
    mkGui (fun _ v => (true, negb v))
          (fun _ v => (false, v)) (fun _ v => (false, v))
          (fun _ v => (false, v)) (fun _ v => (false, v)) (fun _ v => (false, v))
          (fun _ _ v => (false, v))
          (fun group => String.eqb group "BSDF") (fun _ => false) in
  let w' := world_of (renderUI (Demo.host Demo.no_probe true) widget Demo.world0) in
  light_view w' = light_view Demo.world0 /\
  bsdf_view w' <> bsdf_view Demo.world0.
Proof.
  intros widget w'.
  destruct (renderUI_collapsed_group_keeps_its_options
              (Demo.host Demo.no_probe true) widget Demo.world0)
    as (_ & _ & Hlight & _).
  split; [exact (Hlight eq_refl) | discriminate].
Defined.

Lemma renderUI_never_lowers_flag_witness :
  mOptionsChanged (viewer_of
    (renderUI (Demo.host Demo.no_probe true) DemoUI.tick_directional
       (raise_options_changed Demo.world0))) = true.
Proof.
  apply (renderUI_never_lowers_flag (Demo.host Demo.no_probe true)
           DemoUI.tick_directional (raise_options_changed Demo.world0)).
  reflexivity.
Defined.

(** * What a completed renderUI establishes *)

Section RenderUIEstablishes.

Context (H : Host) (widget : Gui).

Lemma ensures_trivial {A} (m : M A) w : ensures m w (fun _ _ => True).
Proof. unfold ensures. by destruct (m w) as [[a|f] w']. Qed.

Lemma maintains_ensures {A} (I : World -> Prop) (m : M A) w :
  maintains I m -> I w -> ensures m w (fun _ w' => I w').
Proof.
  intros Hm Hw. specialize (Hm w Hw). unfold ensures, world_of in *.
  by destruct (m w) as [[a|f] w'].
Qed.

(** After a completed [renderUI] the readback option is on exactly when the
    scene material is used without fixed texture coordinates or the pixel
    inspector is open. *)
Theorem renderUI_configures_readback w :
  let r := renderUI H widget w in
  result_of r = Returned tt ->
  readback_configured widget (world_of r).
Proof.
  intros r Hdone. subst r.
  refine (ensures_completed _ _ (fun _ w' => readback_configured widget w') _ _ Hdone).
  unfold renderUI.
  do 5 (apply ensures_bind; eapply ensures_mono; [apply ensures_trivial|];
        intros ? ? _; cbv beta).
  apply ensures_bind, ensures_get. cbv beta.
  apply ensures_bind, ensures_modify_params. cbv beta.
  apply maintains_ensures; [|reflexivity].
  unfold renderUI_pixel. repeat maintains_step; intros; assumption.
Qed.

Lemma bsdf_reports_changes dirty w :
  ensures (renderUI_bsdf widget dirty) w (fun dirty' _ =>
    dirty' = dirty || bsdf_changed widget (mParams (this w))).
Proof.
  unfold renderUI_bsdf, bsdf_changed. ensures_run.
  by rewrite !orb_assoc.
Qed.

Lemma light_never_lowers_dirty dirty w :
  ensures (renderUI_light H widget dirty) w (fun dirty' _ =>
    dirty = true -> dirty' = true).
Proof.
  unfold renderUI_light. ensures_run.
  all: try (eapply ensures_mono; [apply ensures_loadEnvMap|];
            intros loaded w' [Hparams ->]; ensures_run).
  all: by intros ->.
Qed.

Lemma optional_group_never_lowers_dirty (open : bool) (group : M bool) dirty w :
  ensures group w (fun dirty' _ => dirty = true -> dirty' = true) ->
  ensures (if open then group else mret dirty) w
    (fun dirty' _ => dirty = true -> dirty' = true).
Proof. destruct open; [done|]. intros _. by apply ensures_ret. Qed.

(** A completed [renderUI] raises the options-changed flag when the
    slice-viewer checkbox reports a change, and when the BSDF group is open
    and one of its six checkboxes reports a change. *)
Theorem renderUI_marks_reported_changes w :
  let r := renderUI H widget w in
  let p := mParams (this w) in
  result_of r = Returned tt ->
  ((checkbox widget "Enable BSDF slice viewer" (sliceViewer p)).1 = true ->
   mOptionsChanged (viewer_of r) = true) /\
  (group_open widget "BSDF" = true -> bsdf_changed widget p = true ->
   mOptionsChanged (viewer_of r) = true).
Proof.
  intros r p Hdone. subst r.
  refine (ensures_completed _ _
            (fun _ w' =>
               ((checkbox widget "Enable BSDF slice viewer" (sliceViewer p)).1 = true ->
                mOptionsChanged (this w') = true) /\
               (group_open widget "BSDF" = true -> bsdf_changed widget p = true ->
                mOptionsChanged (this w') = true)) _ _ Hdone).
  unfold renderUI.
  apply ensures_bind, ensures_on_params. cbv zeta beta.
  set (c := (checkbox widget "Enable BSDF slice viewer" _).1).
  set (w0 := with_viewer _ w).
  assert (H0 : bsdf_view w0 = bsdf_view w) by reflexivity. clearbody w0.
  (* Material *)
  apply ensures_bind.
  eapply (ensures_mono _ _ (fun d1 w1 =>
            (false || c = true -> d1 = true) /\ bsdf_view w1 = bsdf_view w)).
  { destruct (group_open widget "Material").
    - unfold ensures.
      pose proof (material_keeps_light_state H widget (false || c) w0) as Hmono.
      assert (Hview : maintains (fun w' => bsdf_view w' = bsdf_view w)
                        (renderUI_material H widget (false || c))).
      { unfold renderUI_material. repeat maintains_step; intros; assumption. }
      specialize (Hview w0 H0). unfold ensures, world_of in *.
      destruct (renderUI_material H widget (false || c) w0) as [[d1|f] w1]; [|done].
      split; [apply Hmono | exact Hview].
    - by apply ensures_ret. }
  intros d1 w1 [Hd1 H1]. cbv beta.
  (* BSDF *)
  apply ensures_bind.
  eapply (ensures_mono _ _ (fun d2 _ =>
            (d1 = true -> d2 = true) /\
            (group_open widget "BSDF" = true -> bsdf_changed widget p = true ->
             d2 = true))).
  { destruct (group_open widget "BSDF").
    - eapply ensures_mono; [apply bsdf_reports_changes|].
      intros d2 w2 ->. cbv beta.
      assert (Hsame : bsdf_changed widget (mParams (this w1)) = bsdf_changed widget p).
      { unfold bsdf_changed, bsdf_view in *. cbn in H1.
        by injection H1 as -> -> -> -> -> ->. }
      rewrite Hsame. split; [by intros -> | intros _ ->; apply orb_true_r].
    - apply ensures_ret. split; [done | discriminate]. }
  intros d2 w2 [Hd2 Hbsdf]. cbv beta.
  (* Light *)
  apply ensures_bind. eapply ensures_mono;
    [apply optional_group_never_lowers_dirty, light_never_lowers_dirty|].
  intros d3 w3 Hd3. cbv beta.
  (* Camera *)
  apply ensures_bind. eapply ensures_mono;
    [apply optional_group_keeps, camera_keeps_light_state|].
  intros d4 w4 [_ Hd4]. cbv beta.
  assert (Hslice : c = true -> d4 = true) by (intros Hc; by apply Hd4, Hd3, Hd2, Hd1).
  assert (Hgroup : group_open widget "BSDF" = true -> bsdf_changed widget p = true ->
                   d4 = true) by (intros Ho Hc; by apply Hd4, Hd3, Hbsdf).
  clear Hd1 Hd2 Hbsdf Hd3 Hd4.
  apply ensures_bind, ensures_get. cbv beta.
  apply ensures_bind, ensures_modify_params. cbv beta.
  apply ensures_bind. eapply ensures_mono; [apply ensures_trivial|].
  intros [] w6 _. cbv beta.
  unfold when. destruct d4.
  - apply ensures_modify. done.
  - apply ensures_ret.
    split; [intros Hc; discriminate (Hslice Hc)
           | intros Ho Hc; discriminate (Hgroup Ho Hc)].
Qed.

End RenderUIEstablishes.

Lemma renderUI_configures_readback_witness :
  readback_configured DemoUI.tick_directional
    (world_of (renderUI (Demo.host Demo.no_probe true) DemoUI.tick_directional
                 Demo.world0)).
Proof.
  apply (renderUI_configures_readback (Demo.host Demo.no_probe true)
           DemoUI.tick_directional Demo.world0).
  vm_compute. reflexivity.
Defined.

Lemma renderUI_marks_reported_changes_witness :
  let widget :=
    mkGui (fun label v => if String.eqb label "Use pdf" then (true, negb v) else (false, v))
          (fun _ v => (false, v)) (fun _ v => (false, v))
          (fun _ v => (false, v)) (fun _ v => (false, v)) (fun _ v => (false, v))
          (fun _ _ v => (false, v)) (fun _ => true) (fun _ => false) in
  mOptionsChanged (viewer_of
    (renderUI (Demo.host Demo.no_probe true) widget Demo.world0)) = true.
Proof.
  intros widget.
  assert (Hdone : result_of (renderUI (Demo.host Demo.no_probe true) widget
                               Demo.world0) = Returned tt)
    by (vm_compute; reflexivity).
  destruct (renderUI_marks_reported_changes (Demo.host Demo.no_probe true) widget
              Demo.world0 Hdone) as [_ Hbsdf].
  apply Hbsdf; vm_compute; reflexivity.
Defined.

(** * Options stay backed *)

Section Keeps.

Context (I : World -> Prop).

Lemma keeps_bind {A B} (m : M A) (k : A -> M B) :
  keeps I m -> (forall a, keeps I (k a)) -> keeps I (m ≫= k).
Proof.
  intros Hm Hk w. apply ensures_bind. eapply ensures_mono; [apply Hm|].
  intros a w1 H1. cbv beta. eapply ensures_mono; [apply Hk|].
  intros b w2 H2 Hw. by apply H2, H1.
Qed.

Lemma keeps_of_maintains {A} (m : M A) : maintains I m -> keeps I m.
Proof.
  intros Hm w. unfold ensures. specialize (Hm w). unfold world_of in Hm.
  by destruct (m w) as [[a|f] w'].
Qed.

Lemma keeps_ret {A} (a : A) : keeps I (mret a).
Proof. intros w. by apply ensures_ret. Qed.

End Keeps.

Section OptionsBacked.

Context (H : Host).

Lemma ensures_loadEnvMap_probe filename w :
  ensures (loadEnvMap H filename) w (fun loaded w' =>
    mParams (this w') = mParams (this w) /\
    mpScene (this w') = mpScene (this w) /\
    if loaded then is_Some (mpEnvProbe (this w'))
    else mpEnvProbe (this w') = mpEnvProbe (this w)).
Proof.
  unfold ensures, loadEnvMap.
  destruct (EnvProbe_create H filename) as [probe|]; [|done].
  unfold_M. cbn. destruct (mpViewerPass (this w)) as [pass|]; cbn; [|done].
  destruct (EnvProbe_setIntoConstantBuffer H probe pass "gEnvProbe"); cbn; [|done].
  eauto.
Qed.

Lemma material_keeps_options_backed widget dirty :
  keeps options_backed (renderUI_material H widget dirty).
Proof.
  intros w. unfold renderUI_material. ensures_run.
  all: unfold options_backed; simpl_world; use_equations.
  all: intros [Hscene Henv]; split; [|exact Henv].
  all: try (intros Hfalse; discriminate Hfalse).
  all: intros _;
    match goal with
    | Hq : negb (bool_decide _) = false |- _ =>
        apply negb_false_iff, bool_decide_eq_true in Hq; exact Hq
    end.
Qed.

Lemma light_keeps_options_backed widget dirty :
  keeps options_backed (renderUI_light H widget dirty).
Proof.
  intros w. unfold renderUI_light. ensures_run.
  all: try (eapply ensures_mono; [apply ensures_loadEnvMap_probe|];
            intros loaded w' (Hparams & Hscene' & Hprobe); ensures_run).
  all: unfold options_backed; simpl_world; use_equations.
  all: intros [Hscene Henv]; (split; [exact Hscene|]).
  all: try exact Henv.
  all: try (intros Hfalse; discriminate Hfalse).
  all: try (intros _; exact Hprobe).
  all: try (intros _; solve [eauto]).
Qed.

Ltac keeps_leaf :=
  apply keeps_of_maintains; repeat maintains_step;
  try (intros; assumption).

Lemma renderUI_keeps_options_backed widget :
  keeps options_backed (renderUI H widget).
Proof.
  unfold renderUI.
  apply keeps_bind; [keeps_leaf | intros c].
  apply keeps_bind; [|intros d1].
  { destruct (group_open widget "Material");
      [apply material_keeps_options_backed | apply keeps_ret]. }
  apply keeps_bind; [|intros d2].
  { destruct (group_open widget "BSDF"); [|apply keeps_ret].
    unfold renderUI_bsdf. keeps_leaf. }
  apply keeps_bind; [|intros d3].
  { destruct (group_open widget "Light");
      [apply light_keeps_options_backed | apply keeps_ret]. }
  apply keeps_bind; [|intros d4].
  { destruct (group_open widget "Camera"); [|apply keeps_ret].
    unfold renderUI_camera. keeps_leaf. }
  unfold renderUI_pixel. keeps_leaf.
Qed.

Lemma setScene_backs_options pScene w :
  let r := setScene H pScene w in
  result_of r = Returned tt ->
  options_backed (world_of r).
Proof.
  destruct pScene as [scene|]; [|by rewrite setScene_null].
  cbn zeta. unfold options_backed, setScene, loadEnvMap. unfold_M. cbn.
  destruct (mpViewerPass (this w)) as [pass|] eqn:Epass; cbn; [|done].
  destruct (getLightProbe scene) as [fn|]; cbn.
  - destruct (EnvProbe_create H fn) as [probe|]; cbn; rewrite ?Epass; cbn.
    + destruct (EnvProbe_setIntoConstantBuffer H probe pass "gEnvProbe"); cbn; [|done].
      decide_tests. cbn. rewrite push_materials_run. cbn. unfold assert, fail.
      destruct (asserts_enabled H && _); cbn; [done|].
      intros _. split; intros Hon; eauto; discriminate Hon.
    + decide_tests. cbn. rewrite push_materials_run. cbn. unfold assert, fail.
      destruct (asserts_enabled H && _); cbn; [done|].
      intros _. split; intros Hon; eauto; discriminate Hon.
  - decide_tests. cbn. rewrite push_materials_run. cbn. unfold assert, fail.
    destruct (asserts_enabled H && _); cbn; [done|].
      intros _. split; intros Hon; eauto; discriminate Hon.
Qed.

Lemma execute_keeps_backing w :
  let s' := viewer_of (execute H w) in
  useSceneMaterial (mParams s') = useSceneMaterial (mParams (this w)) /\
  useEnvMap (mParams s') = useEnvMap (mParams (this w)) /\
  mpScene s' = mpScene (this w) /\ mpEnvProbe s' = mpEnvProbe (this w).
Proof.
  cbn zeta. unfold execute. unfold_M. cbn.
  destruct (mOptionsChanged (this w)); cbn;
    destruct (mpSampleGenerator (this w)) as [generator|]; cbn; try done;
    destruct (mpViewerPass (this w)) as [pass|]; cbn; try done;
    destruct (SampleGenerator_setIntoProgramVars H generator pass); cbn; try done;
    destruct (readback (mParams (this w))); cbn; try done;
    destruct (mPixelDataBuffer (this w)); cbn; done.
Qed.

(** No completed callback breaks the backing of the options: if the scene
    material is used only with a scene attached and the environment map only
    with a probe loaded, this still holds after any callback that completes;
    a completed [setScene] establishes it from any state. *)
Theorem callback_keeps_options_backed c w :
  result_of (run_callback H c w) = Returned tt ->
  (options_backed w \/ (exists pScene, c = SetScene pScene)) ->
  options_backed (world_of (run_callback H c w)).
Proof.
  intros Hdone Hbefore.
  destruct c as [dims | pScene | | widget | ev | ev]; cbn [run_callback] in *.
  - destruct Hbefore as [Hb | [? [=]]]. by rewrite compile_run.
  - by apply setScene_backs_options.
  - destruct Hbefore as [[Hscene Henv] | [? [=]]].
    destruct (execute_keeps_backing w) as (E1 & E2 & E3 & E4).
    unfold options_backed, viewer_of, world_of in *. by rewrite E1, E2, E3, E4.
  - destruct Hbefore as [Hb | [? [=]]].
    by apply (ensures_completed _ _ _ _ (renderUI_keeps_options_backed widget w) Hdone).
  - destruct Hbefore as [Hb | [? [=]]].
    unfold mbind, M_bind. destruct ev as [t pos].
    destruct (decide (t = LeftButtonDown)) as [-> | Hne].
    + by rewrite onMouseEvent_left.
    + by rewrite onMouseEvent_other.
  - destruct Hbefore as [Hb | [? [=]]].
    unfold mbind, M_bind. destruct ev as [t k].
    destruct (decide (t = KeyPressed)) as [-> | Hne]; [destruct k as [ | | code]|].
    + rewrite onKeyEvent_arrow by (by left). unfold options_backed in *. cbn.
      by destruct (negb _).
    + rewrite onKeyEvent_arrow by (by right). unfold options_backed in *. cbn.
      by destruct (negb _).
    + rewrite onKeyEvent_ignores; [done|]. right. by intros [? | ?].
    + rewrite onKeyEvent_ignores; [done|]. by left.
Qed.

End OptionsBacked.

Lemma callback_keeps_options_backed_witness :
  let H := Demo.host Demo.no_probe true in
  let scene := mkScene 2 (fun i => if i =? 0 then "gold" else "glass") None in
  ~ options_backed DemoUI.envmap_world /\
  options_backed (world_of (run_callback H (SetScene (Some scene)) DemoUI.envmap_world)).
Proof.
  intros H scene. split.
  - intros [_ Henv]. by destruct (Henv eq_refl).
  - apply (callback_keeps_options_backed H (SetScene (Some scene)) DemoUI.envmap_world).
    + vm_compute. reflexivity.
    + right. by exists (Some scene).
Defined.

Lemma onKeyEvent_writes_only_index_and_flag_witness :
  let w := raise_options_changed
             (Demo.with_materials [(0, "0: a"); (1, "1: b")] 0 Demo.world0) in
  let r := onKeyEvent (mkKeyboardEvent KeyPressed Key_Right) w in
  mMaterialList (viewer_of r) = [(0, "0: a"); (1, "1: b")] /\
  mOptionsChanged (viewer_of r) = true.
Proof.
  intros w r.
  destruct (onKeyEvent_writes_only_index_and_flag
              (mkKeyboardEvent KeyPressed Key_Right) w)
    as (Hrest & _ & _ & Hflag).
  split; [|exact (Hflag eq_refl)].
  exact (f_equal mMaterialList Hrest).
Defined.

Lemma setScene_resets_selection_witness :
  let scene := mkScene 2 (fun i => if i =? 0 then "gold" else "glass") None in
  let w := Demo.with_materials [(0, "0: a"); (1, "1: b"); (2, "2: c")] 2 Demo.world0 in
  let r := setScene (Demo.host Demo.no_probe true) (Some scene) w in
  mpScene (viewer_of r) = Some scene /\
  materialID (mParams (viewer_of r)) = 0 /\
  useSceneMaterial (mParams (viewer_of r)) = useSceneMaterial (mParams (this w)).
Proof.
  intros scene w r.
  destruct (setScene_resets_selection (Demo.host Demo.no_probe true) (Some scene) w)
    as (Hscene & Hid & _ & _ & Hmode & _).
  split; [exact Hscene|]. split; [exact Hid|]. apply Hmode. by exists scene.
Defined.

(** * The light options on every path of renderUI *)

Section Outcomes.

Context (H : Host).

Lemma outcomes_ret {A} (a : A) w (R : A -> World -> Prop) F :
  R a w -> outcomes (mret a) w R F.
Proof. done. Qed.

Lemma outcomes_bind {A B} (m : M A) (k : A -> M B) w (R : B -> World -> Prop) F :
  outcomes m w (fun a w' => outcomes (k a) w' R F) F ->
  outcomes (m ≫= k) w R F.
Proof.
  unfold outcomes, mbind, M_bind. by destruct (m w) as [[a|f] w'].
Qed.

Lemma outcomes_mono {A} (m : M A) w (R R' : A -> World -> Prop) (F F' : World -> Prop) :
  outcomes m w R F ->
  (forall a w', R a w' -> R' a w') -> (forall w', F w' -> F' w') ->
  outcomes m w R' F'.
Proof.
  unfold outcomes. destruct (m w) as [[a|f] w']; intros Hm HR HF; auto.
Qed.

Lemma outcomes_get w (R : BSDFViewer -> World -> Prop) F :
  R (this w) w -> outcomes get w R F.
Proof. done. Qed.

Lemma outcomes_modify_params f w (R : unit -> World -> Prop) F :
  R tt (with_viewer (set_mParams (f (mParams (this w))) (this w)) w) ->
  outcomes (modify_params f) w R F.
Proof. done. Qed.

Lemma outcomes_on_params {A} (wdg : A -> bool * A) field set w
    (R : bool -> World -> Prop) F :
  (let r := wdg (field (mParams (this w))) in
   R r.1 (with_viewer (set_mParams (set r.2 (mParams (this w))) (this w)) w)) ->
  outcomes (on_params wdg field set) w R F.
Proof. done. Qed.

(** On every path [loadEnvMap] leaves the parameters alone. *)
Lemma outcomes_loadEnvMap filename w :
  outcomes (loadEnvMap H filename) w
    (fun loaded w' =>
       mParams (this w') = mParams (this w) /\
       loaded = bool_decide (is_Some (EnvProbe_create H filename)))
    (fun w' => mParams (this w') = mParams (this w)).
Proof.
  unfold outcomes, loadEnvMap.
  destruct (EnvProbe_create H filename) as [probe|]; [|done].
  unfold_M. cbn. destruct (mpViewerPass (this w)) as [pass|]; cbn; [|done].
  by destruct (EnvProbe_setIntoConstantBuffer H probe pass "gEnvProbe").
Qed.

End Outcomes.

Ltac outcomes_step :=
  lazymatch goal with
  | |- outcomes (mbind _ _) _ _ _ => apply outcomes_bind
  | |- outcomes (mret _) _ _ _ => apply outcomes_ret
  | |- outcomes get _ _ _ => apply outcomes_get
  | |- outcomes (modify_params _) _ _ _ => apply outcomes_modify_params
  | |- outcomes (on_params _ _ _) _ _ _ => apply outcomes_on_params; cbv zeta
  | |- outcomes (when ?b _) _ _ _ => unfold when at 1
  | |- outcomes (if ?b then _ else _) _ _ _ => destruct b eqn:?
  | |- outcomes (match ?o with Some _ => _ | None => _ end) _ _ _ => destruct o eqn:?
  end; cbv beta; simpl_world.

Section LightsOnEveryPath.

Context (H : Host) (widget : Gui).

(** However the light group ends, returning or throwing out of the load, it
    leaves the two options exclusive. *)
Lemma light_group_ends_exclusive dirty w :
  outcomes (renderUI_light H widget dirty) w
    (fun _ w' => exclusive_lights (this w'))
    (fun w' => exclusive_lights (this w')).
Proof.
  unfold renderUI_light. repeat outcomes_step.
  all: try (eapply outcomes_mono; [apply outcomes_loadEnvMap | |];
            [ intros loaded w' [Hparams ->]; repeat outcomes_step
            | intros w' Hparams ]).
  all: unfold exclusive_lights; simpl_world; use_equations.
  all: by intros [? ?].
Qed.

Lemma light_maintains_exclusive dirty :
  maintains (fun w => exclusive_lights (this w)) (renderUI_light H widget dirty).
Proof.
  intros w _. pose proof (light_group_ends_exclusive dirty w) as Hends.
  unfold outcomes, world_of in *.
  by destruct (renderUI_light H widget dirty w) as [[d|f] w'].
Qed.

Lemma renderUI_maintains_exclusive :
  maintains (fun w => exclusive_lights (this w)) (renderUI H widget).
Proof.
  unfold renderUI, renderUI_material, renderUI_bsdf, renderUI_camera, renderUI_pixel.
  repeat maintains_step.
  all: try (intros; assumption).
  apply light_maintains_exclusive.
Qed.



End LightsOnEveryPath.



(** * The light options across callbacks, on every path *)

Section LightsAcrossCallbacks.

Context (H : Host).

Lemma callback_maintains_lights_exclusive c :
  maintains (fun w => exclusive_lights (this w)) (run_callback H c).
Proof.
  destruct c as [dims | pScene | | widget | ev | ev]; cbn [run_callback].
  - intros w Hw. by rewrite compile_run.
  - intros w Hw.
    destruct (setScene_keeps_directional H pScene w) as [Hdir Henv].
    unfold exclusive_lights, viewer_of, world_of in *. rewrite Hdir.
    intros [Hd He]. apply Hw. by split; [|apply Henv].
  - intros w Hw. pose proof (execute_keeps_light_switches H w) as Hsw.
    unfold exclusive_lights, light_switches, viewer_of, world_of in *.
    by injection Hsw as -> ->.
  - apply renderUI_maintains_exclusive.
  - apply maintains_bind; [|intros ?; apply maintains_ret].
    intros w Hw. destruct ev as [t pos].
    destruct (decide (t = LeftButtonDown)) as [-> | Hne].
    + by rewrite onMouseEvent_left.
    + by rewrite onMouseEvent_other.
  - apply maintains_bind; [|intros ?; apply maintains_ret].
    intros w Hw. destruct ev as [t k].
    destruct (decide (t = KeyPressed)) as [-> | Hne]; [destruct k as [ | | code]|].
    + rewrite onKeyEvent_arrow by (by left). unfold exclusive_lights in *. cbn.
      exact Hw.
    + rewrite onKeyEvent_arrow by (by right). unfold exclusive_lights in *. cbn.
      exact Hw.
    + rewrite onKeyEvent_ignores; [done|]. right. by intros [? | ?].
    + rewrite onKeyEvent_ignores; [done|]. by left.
Qed.

(** When the header's initialisers do not enable both options, they are
    never both enabled on a pass returned by [create], after any sequence of
    callbacks, whatever these returned or threw. *)
Lemma created_pass_keeps_lights_exclusive pPass log dict cs :
  create H = Returned (Some pPass) ->
  ~ (useDirectionalLight (default_mParams H) = true /\
     useEnvMap (default_mParams H) = true) ->
  exclusive_lights (this (after H cs (mkWorld pPass log dict))).
Proof.
  intros Hcreate Hdefaults.
  induction cs as [|c cs IH] using rev_ind.
  - cbn. rewrite create_run in Hcreate.
    destruct (ComputePass_create _ _ _ _ _) as [pass|]; [|done].
    destruct (SampleGenerator_create _ _) as [generator|]; [|done].
    destruct (StructuredBuffer_create _ _ _ _) as [buffer|]; [|done].
    by injection Hcreate as <-.
  - rewrite after_snoc. by apply callback_maintains_lights_exclusive.
Qed.

End LightsAcrossCallbacks.
